(** * Sparkify data lake ETL (etl.py): a shallow embedding and its properties

    The script reads two JSON collections (song metadata and session logs),
    derives the star schema tables songs, artists, users, time and songplays
    with Spark DataFrame operations, and writes each as a parquet dataset in
    overwrite mode.

    DataFrames are lists of typed rows, one record type per schema; every
    column is nullable ([option]).  The object store that receives the
    parquet datasets is a finite map from paths to datasets and is threaded
    through the two pipeline functions; a failing Python UDF aborts the run
    ([None]). *)

From Stdlib Require Import ZArith List String Lia Permutation Sorted.
From Stdlib Require Import Floats.SpecFloat.
From stdpp Require Import gmap strings list sorting.

Open Scope Z_scope.

(** ** IEEE 754 binary64, as far as [int(x)/1000.0] and
       [datetime.fromtimestamp] need it *)

Definition binary64 := spec_float.

(** Conversion of a Python int to float (round to nearest, ties to even). *)
Definition b64_of_Z (n : Z) : binary64 := binary_normalize 53 1024 n 0 false.
Definition b64_div : binary64 -> binary64 -> binary64 := SFdiv 53 1024.
Definition b64_mul : binary64 -> binary64 -> binary64 := SFmul 53 1024.

(** C [modf]: fractional part (same sign as the argument) and integral
    part, both exact. *)
Definition modf (d : binary64) : binary64 * Z :=
  match d with
  | S754_finite s m (Zneg p) =>
      (binary_normalize 53 1024
         (cond_Zopp s (Z.land (Zpos m) (Z.ones (Zpos p)))) (Zneg p) s,
       cond_Zopp s (Z.shiftr (Zpos m) (Zpos p)))
  | S754_finite s m e => (S754_zero s, cond_Zopp s (Z.shiftl (Zpos m) e))
  | _ => (d, 0)
  end.

(** [_PyTime_ROUND_HALF_EVEN]: the nearest integer, ties to the even one. *)
Definition round_half_even (d : binary64) : Z :=
  match d with
  | S754_finite s m (Zneg p) =>
      let q := Z.shiftr (Zpos m) (Zpos p) in
      let r := Z.land (Zpos m) (Z.ones (Zpos p)) in
      cond_Zopp s
        match r ?= Z.shiftl 1 (Zpos p - 1) with
        | Lt => q
        | Gt => q + 1
        | Eq => if Z.even q then q else q + 1
        end
  | S754_finite s m e => cond_Zopp s (Z.shiftl (Zpos m) e)
  | _ => 0
  end.

(** [_PyTime_DoubleToDenominator(d, &sec, &us, 1e6, HALF_EVEN)]: whole
    seconds and microseconds in [0, 10^6) of a float number of seconds;
    not defined on NaN and infinities. *)
Definition to_timeval (d : binary64) : option (Z * Z) :=
  match d with
  | S754_nan | S754_infinity _ => None
  | _ =>
      let '(floatpart, intpart) := modf d in
      let us := round_half_even (b64_mul floatpart (b64_of_Z 1000000)) in
      if 1000000 <=? us then Some (intpart + 1, us - 1000000)
      else if us <? 0 then Some (intpart - 1, us + 1000000)
      else Some (intpart, us)
  end.

(** ** Calendar: proleptic Gregorian dates from a day count since
       1970-01-01 *)

Record civil := { c_year : Z; c_month : Z; c_day : Z }.

Definition civil_from_days (days : Z) : civil :=
  let z := days + 719468 in
  let era := z / 146097 in
  let doe := z - era * 146097 in
  let yoe := (doe - doe / 1460 + doe / 36524 - doe / 146096) / 365 in
  let doy := doe - (365 * yoe + yoe / 4 - yoe / 100) in
  let mp := (5 * doy + 2) / 153 in
  let m := if mp <? 10 then mp + 3 else mp - 9 in
  {| c_year := yoe + era * 400 + (if m <=? 2 then 1 else 0);
     c_month := m;
     c_day := doy - (153 * mp + 2) / 5 + 1 |}.

(** Day count of January 1st of year [y]. *)
Definition days_of_new_year (y : Z) : Z :=
  let y' := y - 1 in
  let era := y' / 400 in
  let yoe := y' - era * 400 in
  era * 146097 + (yoe * 365 + yoe / 4 - yoe / 100 + 306) - 719468.

(** SQL timestamps are microseconds since the epoch, SQL dates are days
    since the epoch. *)
Record Timestamp := { micros : Z }.
Record Date := { days : Z }.

#[export] Instance Timestamp_eq_dec : EqDecision Timestamp.
Proof. solve_decision. Defined.

(** A zone, as the Python workers and the Spark session see it: the
    offset from UTC in force at an instant, in seconds east, and C
    [mktime], which gives the instant that a reading of the local clock
    stands for.  Instants are seconds since the epoch; a reading of the
    local clock is the number of seconds from 1970-01-01 00:00:00 on that
    clock. *)
Record Zone := { utcoffset : Z -> Z; mktime : Z -> Z }.

Definition UTC : Zone := {| utcoffset := fun _ => 0; mktime := fun wall => wall |}.


Section Zone.

(** The zone of the Python workers and of the Spark session. *)
Variable tz : Zone.

(** C [localtime]: the reading of the local clock at an instant. *)
Definition localtime (s : Z) : Z := s + utcoffset tz s.

Definition local_seconds (t : Timestamp) : Z := localtime (micros t / 1000000).
Definition local_days (t : Timestamp) : Z := local_seconds t / 86400.

(** The Spark column functions imported by the script. *)
Definition year (t : Timestamp) : Z := c_year (civil_from_days (local_days t)).
Definition month (t : Timestamp) : Z := c_month (civil_from_days (local_days t)).
Definition dayofmonth (t : Timestamp) : Z := c_day (civil_from_days (local_days t)).
Definition hour (t : Timestamp) : Z := (local_seconds t mod 86400) / 3600.

(** [dayofweek]: 1 is Sunday, 7 is Saturday. *)
Definition dayofweek (t : Timestamp) : Z := (local_days t + 4) mod 7 + 1.

(** [weekofyear]: the ISO 8601 week, that is the week of the year that
    holds this week's Thursday. *)
Definition weekofyear (t : Timestamp) : Z :=
  let d := local_days t in
  let thursday := d - (d + 3) mod 7 + 3 in
  (thursday - days_of_new_year (c_year (civil_from_days thursday))) / 7 + 1.

(** A datetime holds the years 1 to 9999. *)
Definition year_in_range (wall : Z) : bool :=
  let y := c_year (civil_from_days (wall / 86400)) in
  (1 <=? y) && (y <=? 9999).

(** [datetime.fromtimestamp(x)]: the naive local date and time, as the
    reading of the local clock in seconds, and the microseconds.  Python
    raises when the year is outside 1 to 9999, also for the local time 24
    hours earlier, which it computes to find out whether the reading
    repeats, and for the local time at the start of the repeated span. *)
Definition fromtimestamp (x : binary64) : option (Z * Z) :=
  match to_timeval x with
  | Some (sec, us) =>
      let result := localtime sec in
      let probe := localtime (sec - 86400) in
      let transition := result - probe - 86400 in
      if negb (year_in_range result) then None
      else if negb (year_in_range probe) then None
      else if (transition <? 0)
              && negb (year_in_range (localtime (sec + transition))) then None
      else Some (result, us)
  | None => None
  end.

(** The body of both lambdas: [datetime.fromtimestamp(int(x)/1000.0)];
    [int(None)] raises. *)
Definition ts_lambda (x : option Z) : option (Z * Z) :=
  match x with
  | Some n => fromtimestamp (b64_div (b64_of_Z n) (b64_of_Z 1000))
  | None => None
  end.

(** [get_timestamp = udf(lambda ..., TimestampType())]: Spark stores the
    naive datetime [dt] as [int(time.mktime(dt.timetuple())) * 1000000 +
    dt.microsecond], microseconds since the epoch. *)
Definition get_timestamp (x : option Z) : option Timestamp :=
  match ts_lambda x with
  | Some (wall, us) => Some {| micros := mktime tz wall * 1000000 + us |}
  | None => None
  end.

(** [get_datetime = udf(lambda ..., DateType())]: the same datetime stored
    as the day count of its local date. *)
Definition get_datetime (x : option Z) : option Date :=
  match ts_lambda x with
  | Some (wall, us) => Some {| days := wall / 86400 |}
  | None => None
  end.

End Zone.

(** ** SQL values and DataFrame operations *)

(** SQL comparison and conjunction are three-valued: [None] is NULL. *)
Definition sql_eq {A} `{EqDecision A} (a b : option A) : option bool :=
  match a, b with
  | Some x, Some y => Some (bool_decide (x = y))
  | _, _ => None
  end.

Definition sql_and (p q : option bool) : option bool :=
  match p, q with
  | Some false, _ | _, Some false => Some false
  | Some true, Some true => Some true
  | _, _ => None
  end.

(** A filter or join condition keeps a row only when it is TRUE. *)
Definition holds (p : option bool) : bool :=
  match p with Some true => true | _ => false end.

Section DataFrame.
Context {A : Type}.

(** [df.dropDuplicates(c)]: one row for each distinct value of column [c]
    (NULL is one value), the first row met with that value. *)
Fixpoint dropDuplicates_from {K} `{EqDecision K}
    (key : A -> K) (seen : list K) (df : list A) : list A :=
  match df with
  | [] => []
  | r :: df' =>
      if decide (key r ∈ seen) then dropDuplicates_from key seen df'
      else r :: dropDuplicates_from key (key r :: seen) df'
  end.

Definition dropDuplicates {K} `{EqDecision K} (key : A -> K) (df : list A) :=
  dropDuplicates_from key [] df.

(** The first row of [df] whose column [key] holds [k]. *)
Definition first_with {K} `{EqDecision K} (key : A -> K) (k : K) (df : list A)
  : option A :=
  List.find (fun r => bool_decide (key r = k)) df.

(** The rows of [right] that satisfy the join condition with [l]. *)
Definition partners {B} (on : A -> B -> option bool) (right : list B) (l : A)
  : list B :=
  List.filter (fun r => holds (on l r)) right.

(** [left.join(right, on, "left")]: every pair that satisfies [on], and
    each left row without a partner once, with NULLs on the right. *)
Definition join_left {B} (left : list A) (right : list B)
    (on : A -> B -> option bool) : list (A * option B) :=
  flat_map
    (fun l =>
       match partners on right l with
       | [] => [(l, None)]
       | matches => map (fun r => (l, Some r)) matches
       end)
    left.

(** A window without [partitionBy] gathers all rows in one partition.
    Spark does not fix the order in which rows with equal sort keys
    arrive there: the arrival order is a list of positions at which
    neighbouring rows are swapped before the sort. *)
Fixpoint swap_at (n : nat) (l : list A) : list A :=
  match n, l with
  | O, x :: y :: l' => y :: x :: l'
  | S n', x :: l' => x :: swap_at n' l'
  | _, _ => l
  end.

Definition exchange (arrival : list nat) (df : list A) : list A :=
  fold_left (fun acc n => swap_at n acc) arrival df.

(** [Window.orderBy(c)]: ascending by column [c]. *)
Definition ascending (key : A -> Z) : relation A := fun a b => key a <= key b.

#[export] Instance ascending_dec (key : A -> Z) : RelDecision (ascending key).
Proof. intros a b. unfold ascending. apply Z_le_dec. Defined.

Definition orderBy (key : A -> Z) (arrival : list nat) (df : list A) : list A :=
  merge_sort (ascending key) (exchange arrival df).

(** [row_number().over(window)]: 1, 2, 3, ... along the window order. *)
Definition row_number_over (key : A -> Z) (arrival : list nat) (df : list A)
  : list (A * Z) :=
  let ordered := orderBy key arrival df in
  combine ordered (map Z.of_nat (seq 1 (length ordered))).

End DataFrame.

(** ** Schemas *)

(** Rows of [song_data_df] (and of [song_df], the same files read again). *)
Module Song.
Record row := {
  artist_id : option string;
  artist_latitude : option binary64;
  artist_location : option string;
  artist_longitude : option binary64;
  artist_name : option string;
  duration : option binary64;
  num_songs : option Z;
  song_id : option string;
  title : option string;
  year : option Z }.
End Song.

(** Rows of [log_data_df] as read: the columns the script uses. *)
Module Log.
Record row := {
  artist : option string;
  firstName : option string;
  gender : option string;
  lastName : option string;
  level : option string;
  location : option string;
  page : option string;
  sessionId : option Z;
  song : option string;
  ts : option Z;
  userAgent : option string;
  userId : option string }.
End Log.

(** Rows of [log_data_df] after the two [withColumn] calls. *)
Module LogT.
Record row := {
  event : Log.row;
  timestamp : Timestamp;
  datetime : Timestamp }.
End LogT.

Module Songs.
Record row := {
  song_id : option string;
  title : option string;
  artist_id : option string;
  duration : option binary64;
  year : option Z }.
End Songs.

Module Artists.
Record row := {
  artist_id : option string;
  name : option string;
  location : option string;
  latitude : option binary64;
  longitude : option binary64 }.
End Artists.

Module Users.
Record row := {
  user_id : option string;
  first_name : option string;
  last_name : option string;
  gender : option string;
  level : option string }.
End Users.

Module Times.
Record row := {
  ts : option Z;
  datetime : Timestamp;
  timestamp : Timestamp;
  hour : Z;
  day : Z;
  week : Z;
  month : Z;
  year : Z;
  weekday : Z;
  start_time : Timestamp }.
End Times.

Module Songplays.
Record row := {
  start_time : Timestamp;
  user_id : option string;
  level : option string;
  song_id : option string;
  artist_id : option string;
  session_id : option Z;
  location : option string;
  user_agent : option string;
  songplay_id : Z;
  month : Z;
  year : Z }.
End Songplays.

(** The eight columns selected from the join, before [songplay_id],
    [month] and [year] are added. *)
Module Play.
Record row := {
  start_time : Timestamp;
  user_id : option string;
  level : option string;
  song_id : option string;
  artist_id : option string;
  session_id : option Z;
  location : option string;
  user_agent : option string }.
End Play.

(** ** process_song_data: the songs and artists tables *)

Definition select_songs (r : Song.row) : Songs.row :=
  {| Songs.song_id := Song.song_id r;
     Songs.title := Song.title r;
     Songs.artist_id := Song.artist_id r;
     Songs.duration := Song.duration r;
     Songs.year := Song.year r |}.

Definition songs_table (song_data_df : list Song.row) : list Songs.row :=
  dropDuplicates Songs.song_id (map select_songs song_data_df).

Definition select_artists (r : Song.row) : Artists.row :=
  {| Artists.artist_id := Song.artist_id r;
     Artists.name := Song.artist_name r;
     Artists.location := Song.artist_location r;
     Artists.latitude := Song.artist_latitude r;
     Artists.longitude := Song.artist_longitude r |}.

Definition artists_table (song_data_df : list Song.row) : list Artists.row :=
  dropDuplicates Artists.artist_id (map select_artists song_data_df).

(** ** process_log_data: the users, time and songplays tables *)

(** [log_data_df.filter(log_data_df.page == 'NextSong')] *)
Definition page_is_NextSong (r : Log.row) : bool :=
  holds (sql_eq (Log.page r) (Some "NextSong"%string)).

Definition filter_NextSong (log_data_df : list Log.row) : list Log.row :=
  List.filter page_is_NextSong log_data_df.

Definition select_users (r : Log.row) : Users.row :=
  {| Users.user_id := Log.userId r;
     Users.first_name := Log.firstName r;
     Users.last_name := Log.lastName r;
     Users.gender := Log.gender r;
     Users.level := Log.level r |}.

(** The users table, from [log_data_df] as it is at that line of the
    script: already filtered. *)
Definition users_table (log_data_df : list Log.row) : list Users.row :=
  dropDuplicates Users.user_id (map select_users log_data_df).

(** The two [withColumn] calls, both with [get_timestamp]; the run fails
    when the UDF raises on some row. *)
Definition with_timestamp_datetime (tz : Zone) (r : Log.row) : option LogT.row :=
  t ← get_timestamp tz (Log.ts r);
  d ← get_timestamp tz (Log.ts r);
  Some {| LogT.event := r; LogT.timestamp := t; LogT.datetime := d |}.

Definition withColumns (tz : Zone) (log_data_df : list Log.row)
  : option (list LogT.row) :=
  mapM (with_timestamp_datetime tz) log_data_df.

(** The UDF returns on this row. *)
Definition udf_ok (tz : Zone) (r : Log.row) : bool :=
  match get_timestamp tz (Log.ts r) with Some _ => true | None => false end.

Definition time_row (tz : Zone) (r : LogT.row) : Times.row :=
  {| Times.ts := Log.ts (LogT.event r);
     Times.datetime := LogT.datetime r;
     Times.timestamp := LogT.timestamp r;
     Times.hour := hour tz (LogT.timestamp r);
     Times.day := dayofmonth tz (LogT.timestamp r);
     Times.week := weekofyear tz (LogT.timestamp r);
     Times.month := month tz (LogT.timestamp r);
     Times.year := year tz (LogT.timestamp r);
     Times.weekday := dayofweek tz (LogT.timestamp r);
     Times.start_time := LogT.timestamp r |}.

Definition time_table (tz : Zone) (log_data_df : list LogT.row) : list Times.row :=
  dropDuplicates Times.start_time (map (time_row tz) log_data_df).

(** The join condition
    [(log_data_df.song == song_df.title) & (log_data_df.artist == song_df.artist_name)] *)
Definition join_condition (l : LogT.row) (s : Song.row) : option bool :=
  sql_and (sql_eq (Log.song (LogT.event l)) (Song.title s))
          (sql_eq (Log.artist (LogT.event l)) (Song.artist_name s)).

Definition sp (log_data_df : list LogT.row) (song_df : list Song.row)
  : list (LogT.row * option Song.row) :=
  join_left log_data_df song_df join_condition.

Definition select_songplays (p : LogT.row * option Song.row) : Play.row :=
  let e := LogT.event (fst p) in
  {| Play.start_time := LogT.timestamp (fst p);
     Play.user_id := Log.userId e;
     Play.level := Log.level e;
     Play.song_id := snd p ≫= Song.song_id;
     Play.artist_id := snd p ≫= Song.artist_id;
     Play.session_id := Log.sessionId e;
     Play.location := Log.location e;
     Play.user_agent := Log.userAgent e |}.

Definition start_micros (r : Play.row) : Z := micros (Play.start_time r).

(** The three [withColumn] calls on [songplays_table]. *)
Definition with_id_month_year (tz : Zone) (p : Play.row * Z) : Songplays.row :=
  let r := fst p in
  {| Songplays.start_time := Play.start_time r;
     Songplays.user_id := Play.user_id r;
     Songplays.level := Play.level r;
     Songplays.song_id := Play.song_id r;
     Songplays.artist_id := Play.artist_id r;
     Songplays.session_id := Play.session_id r;
     Songplays.location := Play.location r;
     Songplays.user_agent := Play.user_agent r;
     Songplays.songplay_id := snd p;
     Songplays.month := month tz (Play.start_time r);
     Songplays.year := year tz (Play.start_time r) |}.

Definition songplays_table (tz : Zone) (arrival : list nat)
    (log_data_df : list LogT.row) (song_df : list Song.row) : list Songplays.row :=
  map (with_id_month_year tz)
      (row_number_over start_micros arrival
         (map select_songplays (sp log_data_df song_df))).

(** ** The parquet writer and the object store *)

Inductive Table :=
  | SongsTable (rows : list Songs.row)
  | ArtistsTable (rows : list Artists.row)
  | UsersTable (rows : list Users.row)
  | TimeTable (rows : list Times.row)
  | SongplaysTable (rows : list Songplays.row).

Record Dataset := { table : Table; partitionBy : list string }.

Inductive SaveMode := overwrite | append | ignore | errorifexists.

Definition union_tables (old new : Table) : option Table :=
  match old, new with
  | SongsTable a, SongsTable b => Some (SongsTable (a ++ b))
  | ArtistsTable a, ArtistsTable b => Some (ArtistsTable (a ++ b))
  | UsersTable a, UsersTable b => Some (UsersTable (a ++ b))
  | TimeTable a, TimeTable b => Some (TimeTable (a ++ b))
  | SongplaysTable a, SongplaysTable b => Some (SongplaysTable (a ++ b))
  | _, _ => None
  end.

(** [df.write.partitionBy(cols).parquet(path, mode=mode)] on the store
    [fs]; [None] is a failed write. *)
Definition parquet (df : Table) (cols : list string) (path : string)
    (mode : SaveMode) (fs : gmap string Dataset) : option (gmap string Dataset) :=
  let new := {| table := df; partitionBy := cols |} in
  match mode, fs !! path with
  | overwrite, _ | _, None => Some (<[path := new]> fs)
  | ignore, Some _ => Some fs
  | errorifexists, Some _ => None
  | append, Some old =>
      if decide (partitionBy old = cols) then
        t ← union_tables (table old) df;
        Some (<[path := {| table := t; partitionBy := cols |}]> fs)
      else None
  end.

(** ** The two pipelines and [main] *)

(** What the script obtains from the session: the JSON collections under
    a path pattern, the zone, and the arrival order of the rows in the
    window partition. *)
Record SparkSession := {
  read_song_json : string -> list Song.row;
  read_log_json : string -> list Log.row;
  zone : Zone;
  arrival : list nat }.

Definition process_song_data (spark : SparkSession)
    (input_data output_data : string) (fs : gmap string Dataset)
  : option (gmap string Dataset) :=
  let song_data := (input_data +:+ "song_data/*/*/*/*.json")%string in
  let song_data_df := read_song_json spark song_data in
  fs ← parquet (SongsTable (songs_table song_data_df)) ["year"; "artist_id"]%string
         (output_data +:+ "songs.parquet") overwrite fs;
  parquet (ArtistsTable (artists_table song_data_df)) []
    (output_data +:+ "artists.parquet") overwrite fs.

Definition process_log_data (spark : SparkSession)
    (input_data output_data : string) (fs : gmap string Dataset)
  : option (gmap string Dataset) :=
  let log_data := (input_data +:+ "log_data/*/*/*.json")%string in
  let log_data_df := read_log_json spark log_data in
  let log_data_df := filter_NextSong log_data_df in
  fs ← parquet (UsersTable (users_table log_data_df)) []
         (output_data +:+ "users.parquet") overwrite fs;
  log_data_df ← withColumns (zone spark) log_data_df;
  fs ← parquet (TimeTable (time_table (zone spark) log_data_df)) ["year"; "month"]%string
         (output_data +:+ "time.parquet") overwrite fs;
  let song_data := (input_data +:+ "song_data/*/*/*/*.json")%string in
  let song_df := read_song_json spark song_data in
  parquet (SongplaysTable
             (songplays_table (zone spark) (arrival spark) log_data_df song_df))
    ["year"; "month"]%string (output_data +:+ "songplays.parquet") overwrite fs.

Definition main (spark : SparkSession) (fs : gmap string Dataset)
  : option (gmap string Dataset) :=
  let input_data := "s3a://udacity-dend/"%string in
  let output_data := "s3://udacity-sparkify-music-dl/"%string in
  fs ← process_song_data spark input_data output_data fs;
  process_log_data spark input_data output_data fs.

(** The five paths that [main] writes. *)
Definition destinations : list string :=
  map (String.app "s3://udacity-sparkify-music-dl/")
      ["songs.parquet"; "artists.parquet"; "users.parquet"; "time.parquet";
       "songplays.parquet"]%string.

(** Two runs on unchanged input: under the two patterns that [main] reads,
    both sessions hold the same records, which they may meet in different
    orders, and both run in the same zone. *)
Definition same_input (spark spark' : SparkSession) : Prop :=
  Permutation (read_song_json spark "s3a://udacity-dend/song_data/*/*/*/*.json")
              (read_song_json spark' "s3a://udacity-dend/song_data/*/*/*/*.json") /\
  Permutation (read_log_json spark "s3a://udacity-dend/log_data/*/*/*.json")
              (read_log_json spark' "s3a://udacity-dend/log_data/*/*/*.json") /\
  zone spark = zone spark'.

(** Both runs meet the records in the same order. *)
Definition same_order (spark spark' : SparkSession) : Prop :=
  read_song_json spark "s3a://udacity-dend/song_data/*/*/*/*.json" =
    read_song_json spark' "s3a://udacity-dend/song_data/*/*/*/*.json" /\
  read_log_json spark "s3a://udacity-dend/log_data/*/*/*.json" =
    read_log_json spark' "s3a://udacity-dend/log_data/*/*/*.json".

(** ** Vocabulary of the statements *)

(** A songplays row shows the columns of the log event [l]. *)
Definition carries (l : LogT.row) (r : Songplays.row) : Prop :=
  Songplays.start_time r = LogT.timestamp l /\
  Songplays.user_id r = Log.userId (LogT.event l) /\
  Songplays.level r = Log.level (LogT.event l) /\
  Songplays.session_id r = Log.sessionId (LogT.event l) /\
  Songplays.location r = Log.location (LogT.event l) /\
  Songplays.user_agent r = Log.userAgent (LogT.event l).

(** A songplays row without its surrogate key. *)
Definition unnumbered (r : Songplays.row) : Play.row :=
  {| Play.start_time := Songplays.start_time r;
     Play.user_id := Songplays.user_id r;
     Play.level := Songplays.level r;
     Play.song_id := Songplays.song_id r;
     Play.artist_id := Songplays.artist_id r;
     Play.session_id := Songplays.session_id r;
     Play.location := Songplays.location r;
     Play.user_agent := Songplays.user_agent r |}.

(** Two datasets agree up to the choices that Spark leaves open: which
    of the input rows with one key a dimension table keeps, and which of
    the songplays rows with one start_time gets which songplay_id. *)
Definition same_up_to_choice (d d' : Dataset) : Prop :=
  partitionBy d = partitionBy d' /\
  match table d, table d' with
  | SongsTable a, SongsTable b =>
      Permutation (map Songs.song_id a) (map Songs.song_id b)
  | ArtistsTable a, ArtistsTable b =>
      Permutation (map Artists.artist_id a) (map Artists.artist_id b)
  | UsersTable a, UsersTable b =>
      Permutation (map Users.user_id a) (map Users.user_id b)
  | TimeTable a, TimeTable b =>
      Permutation (map Times.start_time a) (map Times.start_time b)
  | SongplaysTable a, SongplaysTable b =>
      Permutation (map unnumbered a) (map unnumbered b) /\
      map Songplays.songplay_id a = map Songplays.songplay_id b /\
      map Songplays.start_time a = map Songplays.start_time b
  | _, _ => False
  end.

(** The rows that the amended C2 names, written from its words.  The
    catalog record [s] matches the event [l] when title and artist_name
    are the same strings as the event's song and artist; a NULL is no
    string. *)
Definition same_song_and_artist (l : LogT.row) (s : Song.row) : bool :=
  match Log.song (LogT.event l), Song.title s,
        Log.artist (LogT.event l), Song.artist_name s with
  | Some song, Some title, Some artist, Some artist_name =>
      bool_decide (song = title) && bool_decide (artist = artist_name)
  | _, _, _, _ => false
  end.

Definition matching_records (song_df : list Song.row) (l : LogT.row)
  : list Song.row :=
  List.filter (same_song_and_artist l) song_df.

(** The fact row of the event [l], before numbering, with the given
    song_id and artist_id. *)
Definition fact_row (l : LogT.row) (song_id artist_id : option string)
  : Play.row :=
  {| Play.start_time := LogT.timestamp l;
     Play.user_id := Log.userId (LogT.event l);
     Play.level := Log.level (LogT.event l);
     Play.song_id := song_id;
     Play.artist_id := artist_id;
     Play.session_id := Log.sessionId (LogT.event l);
     Play.location := Log.location (LogT.event l);
     Play.user_agent := Log.userAgent (LogT.event l) |}.

(** One row for each matching record, and one row with NULLs when there
    is none. *)
Definition fact_rows_of_event (song_df : list Song.row) (l : LogT.row)
  : list Play.row :=
  match matching_records song_df l with
  | [] => [fact_row l None None]
  | records =>
      map (fun s => fact_row l (Song.song_id s) (Song.artist_id s)) records
  end.

(** ** Sample data *)

Definition sample_event (page userId level : string)
    (song artist : option string) (ts : Z) : Log.row :=
  {| Log.artist := artist;
     Log.firstName := Some "Kaylee"%string;
     Log.gender := Some "F"%string;
     Log.lastName := Some "Summers"%string;
     Log.level := Some level;
     Log.location := Some "Phoenix-Mesa-Scottsdale, AZ"%string;
     Log.page := Some page;
     Log.sessionId := Some 139;
     Log.song := song;
     Log.ts := Some ts;
     Log.userAgent := Some "Mozilla/5.0"%string;
     Log.userId := Some userId |}.

Definition sample_song (song_id artist_id title artist_name : string) : Song.row :=
  {| Song.artist_id := Some artist_id;
     Song.artist_latitude := None;
     Song.artist_location := Some ""%string;
     Song.artist_longitude := None;
     Song.artist_name := Some artist_name;
     Song.duration := Some (b64_of_Z 218);
     Song.num_songs := Some 1;
     Song.song_id := Some song_id;
     Song.title := Some title;
     Song.year := Some 2004 |}.

(** A play of "Test Song" by user 8, a login of user 9 who never plays,
    and a play of a song that is not in the catalog. *)
Definition play_event : Log.row :=
  sample_event "NextSong" "8" "free"
    (Some "Test Song"%string) (Some "Test Artist"%string) 1541106106796.

Definition login_event : Log.row :=
  sample_event "Login" "9" "paid" None None 1541106000000.

Definition unmatched_event : Log.row :=
  sample_event "NextSong" "8" "paid"
    (Some "Unknown Song"%string) (Some "Nobody"%string) 1541106106796.

(** A play whose ts is NULL. *)
Definition null_ts_event : Log.row :=
  {| Log.artist := Some "Test Artist"%string;
     Log.firstName := Some "Kaylee"%string;
     Log.gender := Some "F"%string;
     Log.lastName := Some "Summers"%string;
     Log.level := Some "free"%string;
     Log.location := None;
     Log.page := Some "NextSong"%string;
     Log.sessionId := Some 139;
     Log.song := Some "Test Song"%string;
     Log.ts := None;
     Log.userAgent := None;
     Log.userId := Some "8"%string |}.

(** Two catalog files with the same title and artist name. *)
Definition song_S1 : Song.row := sample_song "S1" "A1" "Test Song" "Test Artist".
Definition song_S2 : Song.row := sample_song "S2" "A1" "Test Song" "Test Artist".

(** The two plays with their timestamp columns. *)
Definition play_row : LogT.row :=
  {| LogT.event := play_event;
     LogT.timestamp := {| micros := 1541106106796000 |};
     LogT.datetime := {| micros := 1541106106796000 |} |}.

Definition unmatched_row : LogT.row :=
  {| LogT.event := unmatched_event;
     LogT.timestamp := {| micros := 1541106106796000 |};
     LogT.datetime := {| micros := 1541106106796000 |} |}.

Definition sample_session (logs : list Log.row) (songs : list Song.row)
    (arrival : list nat) : SparkSession :=
  {| read_song_json := fun _ => songs;
     read_log_json := fun _ => logs;
     zone := UTC;
     arrival := arrival |}.


(** ** Checks over one 400-year cycle of the calendar *)

(** [f] holds on [i], [i+1], ..., [i+n-1]. *)
Fixpoint all_from (f : Z -> bool) (n : nat) (i : Z) : bool :=
  match n with
  | O => true
  | S n' => f i && all_from f n' (i + 1)
  end.

(** For the day [doe] of the cycle that starts on 0000-03-01: the month
    is in 1..12, the day of the month in 1..31, and the day lies 0 to 365
    days after the new year of its year. *)
Definition cycle_day_ok (doe : Z) : bool :=
  let d := doe - 719468 in
  let c := civil_from_days d in
  (1 <=? c_month c) && (c_month c <=? 12) &&
  (1 <=? c_day c) && (c_day c <=? 31) &&
  (0 <=? d - days_of_new_year (c_year c)) &&
  (d - days_of_new_year (c_year c) <=? 365).

(** ** Facts about the DataFrame operations *)

Section DropDuplicates.
Context {A K : Type} `{EqDecision K} (key : A -> K).

Lemma dropDuplicates_from_In seen df r :
  In r (dropDuplicates_from key seen df) -> In r df /\ ~ In (key r) seen.
Proof.
  revert seen. induction df as [|x df IH]; intros seen; simpl; [tauto|].
  destruct (decide (key x ∈ seen)) as [Hx|Hx].
  - intros Hr. destruct (IH _ Hr). auto.
  - intros [->|Hr].
    + split; [auto|]. now rewrite <- list_elem_of_In.
    + destruct (IH _ Hr) as [? Hn]. split; [auto|].
      intros Hs. apply Hn. now right.
Qed.

Lemma dropDuplicates_from_NoDup seen df :
  List.NoDup (map key (dropDuplicates_from key seen df)).
Proof.
  revert seen. induction df as [|x df IH]; intros seen; simpl; [constructor|].
  destruct (decide (key x ∈ seen)); [apply IH|].
  simpl. apply List.NoDup_cons_iff. split; [|apply IH].
  rewrite in_map_iff. intros (r & Hk & Hr).
  apply dropDuplicates_from_In in Hr as [_ Hn]. apply Hn. rewrite Hk. now left.
Qed.

Lemma dropDuplicates_from_first seen df k :
  ~ In k seen ->
  first_with key k (dropDuplicates_from key seen df) = first_with key k df.
Proof.
  unfold first_with.
  revert seen. induction df as [|x df IH]; intros seen Hk; simpl; [reflexivity|].
  destruct (decide (key x ∈ seen)) as [Hx|Hx].
  - rewrite bool_decide_eq_false_2.
    + now apply IH.
    + intros E. apply Hk. rewrite <- E. now rewrite <- list_elem_of_In.
  - simpl. destruct (bool_decide (key x = k)) eqn:E; [reflexivity|].
    apply IH. apply bool_decide_eq_false in E. intros [?|?]; auto.
Qed.

Lemma first_with_Some k df r :
  first_with key k df = Some r -> In r df /\ key r = k.
Proof.
  unfold first_with. intros H. apply find_some in H as [? H].
  now apply bool_decide_eq_true in H.
Qed.

Lemma first_with_is_Some k df r :
  In r df -> key r = k -> exists r', first_with key k df = Some r'.
Proof.
  unfold first_with. intros Hr Hk.
  destruct (List.find _ df) as [r'|] eqn:E; [eauto|].
  apply (find_none _ _ E) in Hr. apply bool_decide_eq_false in Hr. tauto.
Qed.

Lemma dropDuplicates_NoDup df : List.NoDup (map key (dropDuplicates key df)).
Proof. apply dropDuplicates_from_NoDup. Qed.

Lemma dropDuplicates_first df k :
  first_with key k (dropDuplicates key df) = first_with key k df.
Proof. apply dropDuplicates_from_first. intros []. Qed.

Lemma dropDuplicates_In df r : In r (dropDuplicates key df) -> In r df.
Proof. intros H. now apply dropDuplicates_from_In in H. Qed.

(** The keys of the result are the keys of the argument. *)
Lemma dropDuplicates_keys df k :
  In k (map key (dropDuplicates key df)) <-> In k (map key df).
Proof.
  rewrite !in_map_iff. split.
  - intros (r & Hk & Hr). exists r. split; [auto|]. now apply dropDuplicates_In.
  - intros (r & Hk & Hr).
    destruct (first_with_is_Some k df r Hr Hk) as [r' Hr'].
    rewrite <- dropDuplicates_first in Hr'.
    apply first_with_Some in Hr' as [? ?]. eauto.
Qed.

End DropDuplicates.

Section JoinLeft.
Context {A B : Type} (on : A -> B -> option bool).

Lemma join_left_cons l left right :
  join_left (l :: left) right on =
  match partners on right l with
  | [] => [(l, None)]
  | ms => map (fun r => (l, Some r)) ms
  end ++ join_left left right on.
Proof. reflexivity. Qed.

Lemma join_left_length left right :
  length (join_left left right on) =
  (length left +
   list_sum (map (fun l => Nat.pred (length (partners on right l))) left))%nat.
Proof.
  induction left as [|l left IH]; [reflexivity|].
  rewrite join_left_cons, length_app, IH. simpl.
  destruct (partners on right l) as [|m ms]; simpl; [lia|].
  rewrite length_map. lia.
Qed.

Lemma join_left_In left right l o :
  In (l, o) (join_left left right on) <->
  In l left /\
  match o with
  | Some r => In r right /\ on l r = Some true
  | None => forall r, In r right -> on l r <> Some true
  end.
Proof.
  assert (Hh : forall r, holds (on l r) = true <-> on l r = Some true).
  { intros r. unfold holds. destruct (on l r) as [[|]|]; split; congruence. }
  unfold join_left. rewrite in_flat_map. split.
  - intros (x & Hx & Hin). 
    destruct (partners on right x) as [|m ms] eqn:E.
    + destruct Hin as [[= -> <-]|[]]. split; [auto|].
      intros r Hr Hon. apply Hh in Hon.
      assert (In r (partners on right l)) by (apply filter_In; auto).
      rewrite E in *. auto.
    + rewrite <- E in Hin. apply in_map_iff in Hin as (r & [= -> <-] & Hr).
      apply filter_In in Hr as [? ?]. rewrite <- Hh. auto.
  - intros [Hl Ho]. exists l. split; [auto|]. 
    destruct o as [r|].
    + destruct Ho as [Hr Hon].
      assert (Hp : In r (partners on right l)) by (apply filter_In; rewrite Hh; auto).
      destruct (partners on right l); [destruct Hp|].
      apply in_map_iff. eauto.
    + destruct (partners on right l) as [|m ms] eqn:E; [now left|].
      assert (Hm : In m (partners on right l)) by (rewrite E; now left).
      apply filter_In in Hm as [? Hm]. apply Hh in Hm. now apply Ho in Hm.
Qed.

End JoinLeft.

Section Window.
Context {A : Type} (key : A -> Z).

#[local] Instance ascending_total : Total (ascending key).
Proof. intros a b. unfold ascending. lia. Qed.

#[local] Instance ascending_trans : Transitive (ascending key).
Proof. intros a b c. unfold ascending. lia. Qed.

Lemma swap_at_Permutation n (l : list A) : Permutation (swap_at n l) l.
Proof.
  revert l. induction n as [|n IH]; intros [|x l]; simpl; auto.
  destruct l; [reflexivity|apply perm_swap].
Qed.

Lemma exchange_Permutation arrival (df : list A) :
  Permutation (exchange arrival df) df.
Proof.
  unfold exchange. revert df.
  induction arrival as [|n arrival IH]; intros df; simpl; [reflexivity|].
  rewrite IH. apply swap_at_Permutation.
Qed.

Lemma orderBy_Permutation arrival df : Permutation (orderBy key arrival df) df.
Proof.
  unfold orderBy. rewrite merge_sort_Permutation. apply exchange_Permutation.
Qed.

Lemma orderBy_StronglySorted arrival df :
  StronglySorted (ascending key) (orderBy key arrival df).
Proof. apply StronglySorted_merge_sort; apply _. Qed.

(** The keys along the window order do not depend on the arrival order. *)
Lemma orderBy_keys arrival1 arrival2 df :
  map key (orderBy key arrival1 df) = map key (orderBy key arrival2 df).
Proof.
  assert (Hs : forall arrival, Sorted Z.le (map key (orderBy key arrival df))).
  { intros arrival. apply (Sorted_fmap key (ascending key) Z.le); [auto|].
    apply StronglySorted_Sorted, orderBy_StronglySorted. }
  apply (Sorted_unique Z.le); [apply Hs | apply Hs |].
  apply Permutation_map. now rewrite !orderBy_Permutation.
Qed.

Lemma numbered_fst (l : list A) s :
  map fst (combine l (map Z.of_nat (seq s (length l)))) = l.
Proof.
  revert s. induction l as [|x l IH]; intros s; simpl; [reflexivity|].
  now rewrite IH.
Qed.

Lemma numbered_snd (l : list A) s :
  map snd (combine l (map Z.of_nat (seq s (length l)))) =
  map Z.of_nat (seq s (length l)).
Proof.
  revert s. induction l as [|x l IH]; intros s; simpl; [reflexivity|].
  now rewrite IH.
Qed.

Lemma numbered_lower (l : list A) s a i :
  In (a, i) (combine l (map Z.of_nat (seq s (length l)))) -> Z.of_nat s <= i.
Proof.
  revert s. induction l as [|x l IH]; intros s; simpl; [tauto|].
  intros [[= _ <-]|H]; [lia|]. apply IH in H. lia.
Qed.

Lemma numbered_sorted (l : list A) s a i b j :
  StronglySorted (ascending key) l ->
  In (a, i) (combine l (map Z.of_nat (seq s (length l)))) ->
  In (b, j) (combine l (map Z.of_nat (seq s (length l)))) ->
  i <= j -> key a <= key b.
Proof.
  intros Hs. revert s. induction Hs as [|x l Hs IH Hx]; intros s; simpl; [tauto|].
  intros [[= <- <-]|Ha] [[= <- <-]|Hb] Hij.
  - lia.
  - apply in_combine_l in Hb. rewrite Forall_forall in Hx.
    apply Hx. now apply list_elem_of_In.
  - apply numbered_lower in Ha. lia.
  - eauto.
Qed.

Lemma row_number_over_fst arrival df :
  map fst (row_number_over key arrival df) = orderBy key arrival df.
Proof. apply numbered_fst. Qed.

Lemma row_number_over_length arrival df :
  length (row_number_over key arrival df) = length df.
Proof.
  rewrite <- (length_map fst), row_number_over_fst.
  apply Permutation_length, orderBy_Permutation.
Qed.

Lemma row_number_over_snd arrival df :
  map snd (row_number_over key arrival df) =
  map Z.of_nat (seq 1 (length df)).
Proof.
  unfold row_number_over. rewrite numbered_snd.
  now rewrite (Permutation_length (orderBy_Permutation arrival df)).
Qed.

Lemma row_number_over_increasing arrival df a i b j :
  In (a, i) (row_number_over key arrival df) ->
  In (b, j) (row_number_over key arrival df) ->
  key a < key b -> i < j.
Proof.
  intros Ha Hb Hlt. destruct (Z_lt_le_dec i j) as [|Hji]; [auto|].
  pose proof (numbered_sorted _ _ _ _ _ _
                (orderBy_StronglySorted arrival df) Hb Ha Hji).
  lia.
Qed.

End Window.

(** ** Facts about the pipelines *)

Lemma page_is_NextSong_iff r :
  page_is_NextSong r = true <-> Log.page r = Some "NextSong"%string.
Proof.
  unfold page_is_NextSong, sql_eq, holds. destruct (Log.page r) as [p|]; simpl.
  - destruct (bool_decide (p = "NextSong"%string)) eqn:E.
    + apply bool_decide_eq_true in E. subst. tauto.
    + apply bool_decide_eq_false in E. split; [discriminate|]. intros [= ->]. tauto.
  - split; discriminate.
Qed.

Lemma filter_NextSong_In log_data_df r :
  In r (filter_NextSong log_data_df) <->
  In r log_data_df /\ Log.page r = Some "NextSong"%string.
Proof. unfold filter_NextSong. now rewrite filter_In, page_is_NextSong_iff. Qed.

Lemma with_timestamp_datetime_Some tz e r :
  with_timestamp_datetime tz e = Some r <->
  exists t, get_timestamp tz (Log.ts e) = Some t /\
            r = {| LogT.event := e; LogT.timestamp := t; LogT.datetime := t |}.
Proof.
  unfold with_timestamp_datetime.
  destruct (get_timestamp tz (Log.ts e)) as [t|]; simpl; split.
  - intros [= <-]. eauto.
  - intros (t' & [= <-] & ->). reflexivity.
  - discriminate.
  - intros (t' & [=] & _).
Qed.

Lemma withColumns_ok tz df :
  forallb (udf_ok tz) df = true -> exists df', withColumns tz df = Some df'.
Proof.
  intros H. apply (mapM_is_Some_2 (with_timestamp_datetime tz)).
  apply Forall_forall. intros e He. apply list_elem_of_In in He.
  rewrite forallb_forall in H. specialize (H e He).
  unfold udf_ok in H. unfold compose, with_timestamp_datetime.
  destruct (get_timestamp tz (Log.ts e)); [simpl; eauto|discriminate].
Qed.

Lemma withColumns_length tz df df' :
  withColumns tz df = Some df' -> length df' = length df.
Proof.
  intros H. apply mapM_Some_1 in H. symmetry. exact (Forall2_length _ _ _ H).
Qed.

Lemma withColumns_In tz df df' :
  withColumns tz df = Some df' ->
  forall r, In r df' <->
    exists e, In e df /\ with_timestamp_datetime tz e = Some r.
Proof.
  intros H. apply mapM_Some_1 in H.
  induction H as [|e r df df' He H IH]; intros r0; simpl.
  - split; [tauto|]. intros (e & [] & _).
  - rewrite IH. split.
    + intros [<-|(e' & ? & ?)]; eauto.
    + intros (e' & [<-|?] & He'); [left; congruence|eauto].
Qed.

Lemma path_neq (output_data a b : string) :
  a <> b -> (output_data +:+ a)%string <> (output_data +:+ b)%string.
Proof. intros Hab E. now apply (inj (String.app output_data)) in E. Qed.

(** ** The dimension tables *)

(** C5: after deduplication each dimension table has a unique primary key:
    at most one row per song_id in songs, per artist_id in artists and per
    user_id in users; the row kept for a key is, whole, the first row of
    the projected input that has this key. *)
Theorem dimension_keys_unique
    (song_data_df : list Song.row) (log_data_df : list Log.row) :
  (List.NoDup (map Songs.song_id (songs_table song_data_df)) /\
   forall k, first_with Songs.song_id k (songs_table song_data_df) =
             first_with Songs.song_id k (map select_songs song_data_df)) /\
  (List.NoDup (map Artists.artist_id (artists_table song_data_df)) /\
   forall k, first_with Artists.artist_id k (artists_table song_data_df) =
             first_with Artists.artist_id k (map select_artists song_data_df)) /\
  (List.NoDup (map Users.user_id (users_table log_data_df)) /\
   forall k, first_with Users.user_id k (users_table log_data_df) =
             first_with Users.user_id k (map select_users log_data_df)).
Proof.
  unfold songs_table, artists_table, users_table.
  repeat split; auto using dropDuplicates_NoDup, dropDuplicates_first.
Qed.

(** C1, as stated, fails: with a play by user 8 and a login by user 9 in
    the log, the users dataset that [process_log_data] writes has one row,
    for user 8, and none for user 9. *)
Lemma users_table_misses_login_only_user :
  let logs := [play_event; login_event] in
  In login_event logs /\
  Log.userId login_event = Some "9"%string /\
  (exists fs rows,
     process_log_data (sample_session logs [song_S1] []) "in/" "out/" ∅ = Some fs /\
     fs !! "out/users.parquet"%string =
       Some {| table := UsersTable rows; partitionBy := [] |} /\
     map Users.user_id rows = [Some "8"%string]) /\
  ~ exists r, In r (users_table (filter_NextSong logs)) /\
              Users.user_id r = Log.userId login_event.
Proof.
  split; [simpl; auto|]. split; [reflexivity|]. split.
  - assert (H : process_log_data
                  (sample_session [play_event; login_event] [song_S1] [])
                  "in/" "out/" ∅ ≫= (.!! "out/users.parquet"%string) =
                Some {| table := UsersTable [select_users play_event];
                        partitionBy := [] |})
      by (vm_compute; reflexivity).
    destruct (process_log_data _ _ _ _) as [fs|]; [|discriminate H].
    exists fs, [select_users play_event]. auto.
  - intros (r & Hr & Hu). vm_compute in Hr.
    destruct Hr as [<-|[]]. discriminate Hu.
Qed.

(** C1, amended: the users table has exactly one row per distinct user_id
    among the log events with page = "NextSong"; the user_id of an event
    with another page is in the table only if a NextSong event has it
    too. *)
Theorem users_table_from_NextSong_events (log_data_df : list Log.row) :
  let users := users_table (filter_NextSong log_data_df) in
  List.NoDup (map Users.user_id users) /\
  forall u, In u (map Users.user_id users) <->
            exists e, In e log_data_df /\
                      Log.page e = Some "NextSong"%string /\ Log.userId e = u.
Proof.
  unfold users_table. split; [apply dropDuplicates_NoDup|].
  intros u. rewrite dropDuplicates_keys, map_map, in_map_iff.
  split.
  - intros (e & Hu & He). apply filter_NextSong_In in He as [? ?]. eauto.
  - intros (e & He & Hp & Hu). exists e. split; [exact Hu|].
    apply filter_NextSong_In. auto.
Qed.

(** ** The songplays table *)

Lemma unnumbered_with_id tz x i : unnumbered (with_id_month_year tz (x, i)) = x.
Proof. now destruct x. Qed.

Lemma songplays_table_length tz arrival df song_df :
  length (songplays_table tz arrival df song_df) = length (sp df song_df).
Proof.
  unfold songplays_table.
  now rewrite length_map, row_number_over_length, length_map.
Qed.

Lemma songplays_table_ids tz arrival df song_df :
  map Songplays.songplay_id (songplays_table tz arrival df song_df) =
  map Z.of_nat (seq 1 (length (songplays_table tz arrival df song_df))).
Proof.
  rewrite songplays_table_length. unfold songplays_table.
  rewrite map_map. simpl.
  change (fun x => snd x) with (@snd Play.row Z).
  now rewrite row_number_over_snd, length_map.
Qed.

Lemma songplays_table_unnumbered tz arrival df song_df :
  map unnumbered (songplays_table tz arrival df song_df) =
  orderBy start_micros arrival (map select_songplays (sp df song_df)).
Proof.
  unfold songplays_table. rewrite map_map.
  rewrite <- (row_number_over_fst start_micros arrival).
  apply map_ext. intros [x i]. apply unnumbered_with_id.
Qed.


(** C2, as stated, fails: one NextSong event and a catalog with two
    records of the same title and artist name give two songplays rows. *)
Lemma songplays_two_rows_for_one_event :
  let logs := [play_event] in
  let songs := [song_S1; song_S2] in
  length (filter_NextSong logs) = 1%nat /\
  exists fs rows,
    process_log_data (sample_session logs songs []) "in/" "out/" ∅ = Some fs /\
    fs !! "out/songplays.parquet"%string =
      Some {| table := SongplaysTable rows;
              partitionBy := ["year"; "month"]%string |} /\
    map Songplays.song_id rows = [Some "S1"; Some "S2"]%string /\
    length rows = 2%nat.
Proof.
  split; [reflexivity|].
  assert (H : process_log_data
                (sample_session [play_event] [song_S1; song_S2] [])
                "in/" "out/" ∅ ≫= (.!! "out/songplays.parquet"%string) =
              Some {| table := SongplaysTable
                                 (songplays_table UTC [] [play_row]
                                    [song_S1; song_S2]);
                      partitionBy := ["year"; "month"]%string |})
    by (vm_compute; reflexivity).
  destruct (process_log_data _ _ _ _) as [fs|]; [|discriminate H].
  exists fs, (songplays_table UTC [] [play_row] [song_S1; song_S2]).
  split; [reflexivity|]. split; [exact H|]. split; reflexivity.
Qed.

Lemma holds_join_condition l s :
  holds (join_condition l s) = same_song_and_artist l s.
Proof.
  unfold holds, join_condition, sql_and, sql_eq, same_song_and_artist.
  destruct (Log.song (LogT.event l)), (Song.title s),
           (Log.artist (LogT.event l)), (Song.artist_name s);
    try reflexivity; repeat case_bool_decide; reflexivity.
Qed.

Lemma partners_matching_records song_df l :
  partners join_condition song_df l = matching_records song_df l.
Proof.
  unfold partners, matching_records. apply filter_ext.
  intros s. apply holds_join_condition.
Qed.

Lemma select_songplays_sp df song_df :
  map select_songplays (sp df song_df) =
  flat_map (fact_rows_of_event song_df) df.
Proof.
  unfold sp. induction df as [|l df IH]; [reflexivity|].
  rewrite join_left_cons, map_app, IH.
  change (flat_map (fact_rows_of_event song_df) (l :: df))
    with (fact_rows_of_event song_df l ++
          flat_map (fact_rows_of_event song_df) df).
  f_equal. unfold fact_rows_of_event. rewrite partners_matching_records.
  destruct (matching_records song_df l) as [|s ms]; [reflexivity|].
  now rewrite map_map.
Qed.

Lemma withColumns_events tz logs df :
  withColumns tz logs = Some df -> map LogT.event df = logs.
Proof.
  intros H. apply mapM_Some_1 in H.
  induction H as [|e r logs df He _ IH]; [reflexivity|]. simpl.
  apply with_timestamp_datetime_Some in He as (t & _ & ->). simpl.
  now rewrite IH.
Qed.

(** C2, amended: for each event of its input the fact builder produces
    one row per catalog record whose title and artist_name equal the
    event's song and artist, and exactly one row, with song_id and
    artist_id NULL, when no record does.  So no event is dropped; the
    table has one row per event plus, for each event, its matching records
    beyond the first, and exactly one row per event when no event has more
    than one matching record.  The events of that input are the events of
    the log with page = "NextSong", each once. *)
Theorem songplays_rows_per_event tz arrival
    (log_data_df : list LogT.row) (song_df : list Song.row) :
  Permutation
    (map unnumbered (songplays_table tz arrival log_data_df song_df))
    (flat_map (fact_rows_of_event song_df) log_data_df) /\
  length (songplays_table tz arrival log_data_df song_df) =
    (length log_data_df +
     list_sum (map (fun l => Nat.pred (length (matching_records song_df l)))
                   log_data_df))%nat /\
  ((forall l, In l log_data_df ->
      (length (matching_records song_df l) <= 1)%nat) ->
   length (songplays_table tz arrival log_data_df song_df) =
     length log_data_df) /\
  (forall logs, withColumns tz (filter_NextSong logs) = Some log_data_df ->
     map LogT.event log_data_df = filter_NextSong logs).
Proof.
  assert (Hlen : length (songplays_table tz arrival log_data_df song_df) =
    (length log_data_df +
     list_sum (map (fun l => Nat.pred (length (matching_records song_df l)))
                   log_data_df))%nat).
  { rewrite songplays_table_length. unfold sp. rewrite join_left_length.
    f_equal. f_equal. apply map_ext. intros l.
    now rewrite partners_matching_records. }
  split; [|split; [exact Hlen|split]].
  - rewrite songplays_table_unnumbered, orderBy_Permutation.
    now rewrite select_songplays_sp.
  - intros Hone. rewrite Hlen.
    assert (list_sum (map (fun l => Nat.pred (length (matching_records song_df l)))
                          log_data_df) = 0%nat) as ->; [|lia].
    clear Hlen. induction log_data_df as [|l df IH]; [reflexivity|]. simpl.
    rewrite IH by (intros; apply Hone; now right).
    specialize (Hone l (or_introl eq_refl)). lia.
  - intros logs. apply withColumns_events.
Qed.

(** C3: over the N rows of the songplays table the songplay_id column
    holds exactly 1, 2, ..., N, and a row with a smaller start_time has a
    smaller songplay_id, whatever order rows with equal start_time take. *)
Theorem songplay_id_dense_and_ordered tz arrival
    (log_data_df : list LogT.row) (song_df : list Song.row) :
  let rows := songplays_table tz arrival log_data_df song_df in
  map Songplays.songplay_id rows = map Z.of_nat (seq 1 (length rows)) /\
  forall r1 r2, In r1 rows -> In r2 rows ->
    micros (Songplays.start_time r1) < micros (Songplays.start_time r2) ->
    Songplays.songplay_id r1 < Songplays.songplay_id r2.
Proof.
  split; [apply songplays_table_ids|].
  intros r1 r2 H1 H2 Hlt. unfold songplays_table in H1, H2.
  apply in_map_iff in H1 as ([x1 i1] & <- & H1).
  apply in_map_iff in H2 as ([x2 i2] & <- & H2).
  simpl in *.
  exact (row_number_over_increasing start_micros _ _ _ _ _ _ H1 H2 Hlt).
Qed.

(** The join condition is TRUE exactly when both pairs of columns hold
    equal strings; a NULL on either side never matches. *)
Lemma join_condition_true l s :
  join_condition l s = Some true <->
  exists title artist_name,
    Log.song (LogT.event l) = Some title /\ Song.title s = Some title /\
    Log.artist (LogT.event l) = Some artist_name /\
    Song.artist_name s = Some artist_name.
Proof.
  unfold join_condition, sql_and, sql_eq.
  destruct (Log.song (LogT.event l)) as [a|], (Song.title s) as [b|],
           (Log.artist (LogT.event l)) as [c|], (Song.artist_name s) as [d|];
    try (split; [repeat case_bool_decide; discriminate
                |intros (? & ? & ? & ? & ? & ?); discriminate]).
  split.
  - repeat case_bool_decide; try discriminate. subst. intros _. eauto 10.
  - intros (? & ? & [= ->] & [= ->] & [= ->] & [= ->]).
    now rewrite !bool_decide_eq_true_2.
Qed.




(** ** The time table *)

Lemma time_table_In tz df r :
  In r (time_table tz df) -> exists l, In l df /\ r = time_row tz l.
Proof.
  unfold time_table. intros H. apply dropDuplicates_In in H.
  apply in_map_iff in H as (l & <- & Hl). eauto.
Qed.

(** C6: the time table is built from the events with page = "NextSong"
    only; start_time is the timestamp derived from ts; hour, day, week,
    month, year and weekday are functions of start_time; and the table has
    exactly one row for each distinct start_time of a NextSong event. *)
Theorem time_table_one_row_per_start_time tz (logs : list Log.row) :
  forallb (udf_ok tz) (filter_NextSong logs) = true ->
  exists df,
    withColumns tz (filter_NextSong logs) = Some df /\
    List.NoDup (map Times.start_time (time_table tz df)) /\
    (forall t, In t (map Times.start_time (time_table tz df)) <->
               exists e, In e logs /\ Log.page e = Some "NextSong"%string /\
                         get_timestamp tz (Log.ts e) = Some t) /\
    (forall r, In r (time_table tz df) ->
       Times.hour r = hour tz (Times.start_time r) /\
       Times.day r = dayofmonth tz (Times.start_time r) /\
       Times.week r = weekofyear tz (Times.start_time r) /\
       Times.month r = month tz (Times.start_time r) /\
       Times.year r = year tz (Times.start_time r) /\
       Times.weekday r = dayofweek tz (Times.start_time r)).
Proof.
  intros Hok. destruct (withColumns_ok _ _ Hok) as [df Hdf].
  exists df. split; [exact Hdf|].
  split; [apply dropDuplicates_NoDup|]. split.
  - intros t. unfold time_table.
    rewrite dropDuplicates_keys, map_map, in_map_iff. simpl. split.
    + intros (l & <- & Hl).
      apply (withColumns_In _ _ _ Hdf) in Hl as (e & He & Hl).
      apply filter_NextSong_In in He as [He Hp].
      apply with_timestamp_datetime_Some in Hl as (t & Ht & ->).
      exists e. auto.
    + intros (e & He & Hp & Ht).
      exists {| LogT.event := e; LogT.timestamp := t; LogT.datetime := t |}.
      split; [reflexivity|].
      apply (withColumns_In _ _ _ Hdf). exists e.
      split; [now apply filter_NextSong_In|].
      apply with_timestamp_datetime_Some. eauto.
  - intros r Hr. apply time_table_In in Hr as (l & _ & ->).
    repeat split.
Qed.

Lemma time_table_one_row_per_start_time_witness :
  forallb (udf_ok UTC) (filter_NextSong [play_event; login_event; unmatched_event])
    = true /\
  exists df,
    withColumns UTC (filter_NextSong [play_event; login_event; unmatched_event])
      = Some df /\
    map Times.start_time (time_table UTC df) = [{| micros := 1541106106796000 |}].
Proof.
  split; [vm_compute; reflexivity|].
  destruct (time_table_one_row_per_start_time UTC
              [play_event; login_event; unmatched_event])
    as (df & Hdf & _); [vm_compute; reflexivity|].
  exists df. split; [exact Hdf|].
  vm_compute in Hdf. injection Hdf as <-. reflexivity.
Defined.

(** C10: besides start_time, hour, day, week, month, year and weekday the
    written time table keeps the columns ts, datetime and timestamp.  The
    timestamp column is [get_timestamp] of ts, and so is the datetime
    column ([get_datetime] is never applied): datetime equals timestamp on
    every row, and both equal start_time. *)
Theorem time_table_extra_columns tz (logs : list Log.row) (df : list LogT.row) :
  withColumns tz (filter_NextSong logs) = Some df ->
  forall r, In r (time_table tz df) ->
    get_timestamp tz (Times.ts r) = Some (Times.timestamp r) /\
    Times.datetime r = Times.timestamp r /\
    Times.start_time r = Times.timestamp r.
Proof.
  intros Hdf r Hr. apply time_table_In in Hr as (l & Hl & ->).
  apply (withColumns_In _ _ _ Hdf) in Hl as (e & _ & Hl).
  apply with_timestamp_datetime_Some in Hl as (t & Ht & ->).
  simpl. auto.
Qed.

Lemma time_table_extra_columns_witness :
  withColumns UTC (filter_NextSong [play_event; login_event]) = Some [play_row] /\
  forall r, In r (time_table UTC [play_row]) ->
    get_timestamp UTC (Times.ts r) = Some (Times.timestamp r) /\
    Times.datetime r = Times.timestamp r /\
    Times.start_time r = Times.timestamp r.
Proof.
  split; [vm_compute; reflexivity|].
  apply (time_table_extra_columns UTC [play_event; login_event] [play_row]).
  vm_compute. reflexivity.
Defined.

(** ** The timestamp conversion *)

Lemma to_timeval_1541106106796 :
  to_timeval (b64_div (b64_of_Z 1541106106796) (b64_of_Z 1000)) =
  Some (1541106106, 796000).
Proof. vm_compute. reflexivity. Qed.



(** ** The datasets in the store *)

Ltac lookup_paths :=
  repeat first
    [ rewrite lookup_insert_eq
    | rewrite lookup_insert_ne
        by first [ apply path_neq; discriminate | congruence ] ].

(** Compare [path] with every key written on the way to a lookup. *)
Ltac case_paths path :=
  repeat match goal with
  | |- context [<[?k := _]> _ !! path] =>
      destruct (decide (k = path)) as [<-|?];
      [ first [ congruence | now lookup_paths ]
      | rewrite !(lookup_insert_ne _ k path) by assumption ]
  end.

Section Run.
Variable spark : SparkSession.
Variables input_data output_data : string.

Let song_data_df := read_song_json spark (input_data +:+ "song_data/*/*/*/*.json").
Let log_data_df :=
  filter_NextSong (read_log_json spark (input_data +:+ "log_data/*/*/*.json")).

Lemma process_song_data_store fs :
  process_song_data spark input_data output_data fs =
  Some (<[(output_data +:+ "artists.parquet")%string :=
            {| table := ArtistsTable (artists_table song_data_df);
               partitionBy := [] |}]>
        (<[(output_data +:+ "songs.parquet")%string :=
             {| table := SongsTable (songs_table song_data_df);
                partitionBy := ["year"; "artist_id"]%string |}]> fs)).
Proof. reflexivity. Qed.

Lemma process_log_data_store fs :
  process_log_data spark input_data output_data fs =
  match withColumns (zone spark) log_data_df with
  | Some df =>
      Some (<[(output_data +:+ "songplays.parquet")%string :=
                {| table := SongplaysTable
                              (songplays_table (zone spark) (arrival spark)
                                 df song_data_df);
                   partitionBy := ["year"; "month"]%string |}]>
            (<[(output_data +:+ "time.parquet")%string :=
                 {| table := TimeTable (time_table (zone spark) df);
                    partitionBy := ["year"; "month"]%string |}]>
             (<[(output_data +:+ "users.parquet")%string :=
                  {| table := UsersTable (users_table log_data_df);
                     partitionBy := [] |}]> fs)))
  | None => None
  end.
Proof.
  unfold process_log_data. simpl. fold log_data_df.
  destruct (withColumns (zone spark) log_data_df); reflexivity.
Qed.

(** C8: every write replaces what the destination held.  After the two
    pipelines, whatever the store held before, each of the five
    destinations holds exactly the table written there, with partition
    columns (year, artist_id) for songs, (year, month) for time and for
    songplays, and none for artists and users; no other path changes. *)
Theorem writes_overwrite_destinations (df : list LogT.row) :
  withColumns (zone spark) log_data_df = Some df ->
  forall fs, exists fs1 fs2,
    process_song_data spark input_data output_data fs = Some fs1 /\
    process_log_data spark input_data output_data fs1 = Some fs2 /\
    fs2 !! (output_data +:+ "songs.parquet")%string =
      Some {| table := SongsTable (songs_table song_data_df);
              partitionBy := ["year"; "artist_id"]%string |} /\
    fs2 !! (output_data +:+ "artists.parquet")%string =
      Some {| table := ArtistsTable (artists_table song_data_df);
              partitionBy := [] |} /\
    fs2 !! (output_data +:+ "users.parquet")%string =
      Some {| table := UsersTable (users_table log_data_df);
              partitionBy := [] |} /\
    fs2 !! (output_data +:+ "time.parquet")%string =
      Some {| table := TimeTable (time_table (zone spark) df);
              partitionBy := ["year"; "month"]%string |} /\
    fs2 !! (output_data +:+ "songplays.parquet")%string =
      Some {| table := SongplaysTable
                         (songplays_table (zone spark) (arrival spark)
                            df song_data_df);
              partitionBy := ["year"; "month"]%string |} /\
    forall path,
      ~ In path (map (String.app output_data)
                   ["songs.parquet"; "artists.parquet"; "users.parquet";
                    "time.parquet"; "songplays.parquet"]%string) ->
      fs2 !! path = fs !! path.
Proof.
  intros Hdf fs. eexists. eexists.
  split; [apply process_song_data_store|].
  split; [rewrite process_log_data_store, Hdf; reflexivity|].
  repeat split; lookup_paths; try reflexivity.
  intros path Hp. simpl in Hp. now rewrite !lookup_insert_ne by tauto.
Qed.

End Run.

Lemma writes_overwrite_destinations_witness :
  let spark := sample_session [play_event; login_event] [song_S1] [] in
  let stale : gmap string Dataset :=
    {[ "out/songs.parquet"%string :=
         {| table := UsersTable []; partitionBy := ["level"%string] |} ]} in
  withColumns UTC (filter_NextSong [play_event; login_event]) = Some [play_row] /\
  exists fs1 fs2,
    process_song_data spark "in/" "out/" stale = Some fs1 /\
    process_log_data spark "in/" "out/" fs1 = Some fs2 /\
    fs2 !! "out/songs.parquet"%string =
      Some {| table := SongsTable (songs_table [song_S1]);
              partitionBy := ["year"; "artist_id"]%string |}.
Proof.
  intros spark stale. split; [vm_compute; reflexivity|].
  destruct (writes_overwrite_destinations spark "in/" "out/" [play_row])
    with (fs := stale) as (fs1 & fs2 & H1 & H2 & H3 & _);
    [vm_compute; reflexivity|].
  exists fs1, fs2. auto.
Defined.

(** ** Running the script again *)

Lemma map_micros_inj (l1 l2 : list Timestamp) :
  map micros l1 = map micros l2 -> l1 = l2.
Proof.
  revert l2. induction l1 as [|[a] l1 IH]; intros [|[b] l2]; simpl;
    try discriminate; [reflexivity|].
  intros [= -> H]. now rewrite (IH _ H).
Qed.

(** Whatever the arrival orders, two runs number the same rows, and the
    row numbered i has the same start_time in both. *)
Lemma songplays_table_any_arrival tz arrival1 arrival2 df song_df :
  let rows1 := songplays_table tz arrival1 df song_df in
  let rows2 := songplays_table tz arrival2 df song_df in
  Permutation (map unnumbered rows1) (map unnumbered rows2) /\
  map Songplays.songplay_id rows1 = map Songplays.songplay_id rows2 /\
  map Songplays.start_time rows1 = map Songplays.start_time rows2.
Proof.
  intros rows1 rows2. subst rows1 rows2. split; [|split].
  - rewrite !songplays_table_unnumbered, !orderBy_Permutation. reflexivity.
  - rewrite !songplays_table_ids, !songplays_table_length. reflexivity.
  - apply map_micros_inj.
    pose proof (orderBy_keys start_micros arrival1 arrival2
                  (map select_songplays (sp df song_df))) as H.
    rewrite <- !(songplays_table_unnumbered tz) in H.
    rewrite !map_map in *. exact H.
Qed.

Lemma filter_Permutation' {A} (f : A -> bool) l l' :
  Permutation l l' -> Permutation (List.filter f l) (List.filter f l').
Proof.
  induction 1 as [|x l l' _ IH|x y l|l l' l'' _ IH1 _ IH2]; simpl.
  - reflexivity.
  - destruct (f x); [now apply perm_skip|exact IH].
  - destruct (f x), (f y); try reflexivity. apply perm_swap.
  - now rewrite IH1.
Qed.

Lemma mapM_omap {A B} (f : A -> option B) l k :
  mapM f l = Some k -> k = omap f l.
Proof.
  intros H. apply mapM_Some_1 in H.
  induction H as [|x y l k Hx _ IH]; [reflexivity|]. simpl.
  now rewrite Hx, IH.
Qed.

(** The columns added to a log do not depend on the order of its rows. *)
Lemma withColumns_Permutation tz l l' k :
  Permutation l l' -> withColumns tz l = Some k ->
  exists k', withColumns tz l' = Some k' /\ Permutation k k'.
Proof.
  unfold withColumns. intros Hp Hk.
  assert (Hs : is_Some (mapM (with_timestamp_datetime tz) l')).
  { apply mapM_is_Some. rewrite <- Hp. apply mapM_is_Some. eauto. }
  destruct Hs as [k' Hk']. exists k'. split; [exact Hk'|].
  rewrite (mapM_omap _ _ _ Hk), (mapM_omap _ _ _ Hk'). now rewrite Hp.
Qed.

Lemma dropDuplicates_keys_Permutation {A K} `{EqDecision K}
    (key : A -> K) l l' :
  Permutation l l' ->
  Permutation (map key (dropDuplicates key l)) (map key (dropDuplicates key l')).
Proof.
  intros Hp.
  apply Stdlib.Sorting.Permutation.NoDup_Permutation;
    try apply dropDuplicates_NoDup.
  intros k. rewrite !dropDuplicates_keys.
  split; apply Permutation_in, Permutation_map;
    [exact Hp|symmetry; exact Hp].
Qed.

Lemma fact_rows_of_event_Permutation song_df song_df' l :
  Permutation song_df song_df' ->
  Permutation (fact_rows_of_event song_df l) (fact_rows_of_event song_df' l).
Proof.
  intros Hp. unfold fact_rows_of_event, matching_records.
  pose proof (filter_Permutation' (same_song_and_artist l) _ _ Hp) as Hf.
  destruct (List.filter _ song_df) as [|s ms].
  - apply Permutation_nil in Hf. now rewrite Hf.
  - destruct (List.filter _ song_df') as [|s' ms'].
    + symmetry in Hf. apply Permutation_nil in Hf. discriminate Hf.
    + now apply Permutation_map.
Qed.

Lemma fact_rows_Permutation df df' song_df song_df' :
  Permutation df df' -> Permutation song_df song_df' ->
  Permutation (flat_map (fact_rows_of_event song_df) df)
              (flat_map (fact_rows_of_event song_df') df').
Proof.
  intros Hd Hs. rewrite <- Hd. clear Hd df'.
  induction df as [|l df IH]; [reflexivity|]. simpl.
  apply Permutation_app; [now apply fact_rows_of_event_Permutation|exact IH].
Qed.

Lemma orderBy_keys_Permutation {A} (key : A -> Z) arrival1 arrival2 df1 df2 :
  Permutation df1 df2 ->
  map key (orderBy key arrival1 df1) = map key (orderBy key arrival2 df2).
Proof.
  intros Hp.
  assert (Hs : forall arrival df, Sorted Z.le (map key (orderBy key arrival df))).
  { intros arrival df. apply (Sorted_fmap key (ascending key) Z.le); [auto|].
    apply StronglySorted_Sorted, orderBy_StronglySorted. }
  apply (Sorted_unique Z.le); [apply Hs | apply Hs |].
  apply Permutation_map. now rewrite !orderBy_Permutation.
Qed.

(** From the same events and the same catalog, met in any order, two runs
    number the same rows, and the row numbered i has the same start_time
    in both. *)
Lemma songplays_table_same_rows tz arrival1 arrival2 df1 df2 song_df1 song_df2 :
  Permutation df1 df2 -> Permutation song_df1 song_df2 ->
  Permutation (map unnumbered (songplays_table tz arrival1 df1 song_df1))
              (map unnumbered (songplays_table tz arrival2 df2 song_df2)) /\
  map Songplays.songplay_id (songplays_table tz arrival1 df1 song_df1) =
    map Songplays.songplay_id (songplays_table tz arrival2 df2 song_df2) /\
  map Songplays.start_time (songplays_table tz arrival1 df1 song_df1) =
    map Songplays.start_time (songplays_table tz arrival2 df2 song_df2).
Proof.
  intros Hd Hs.
  assert (Hrows : Permutation (map select_songplays (sp df1 song_df1))
                              (map select_songplays (sp df2 song_df2))).
  { rewrite !select_songplays_sp. now apply fact_rows_Permutation. }
  split; [|split].
  - now rewrite !songplays_table_unnumbered, !orderBy_Permutation.
  - rewrite !songplays_table_ids, !songplays_table_length.
    apply Permutation_length in Hrows. rewrite !length_map in Hrows.
    now rewrite Hrows.
  - apply map_micros_inj.
    pose proof (orderBy_keys_Permutation start_micros arrival1 arrival2 _ _ Hrows)
      as H.
    rewrite <- !(songplays_table_unnumbered tz) in H.
    rewrite !map_map in *. exact H.
Qed.

(** C9, as stated, fails: the input holds two plays of user 8, one at
    level free and one at level paid.  The first run meets the free one
    first, the second run the paid one, and the users table, which keeps
    one row per user_id, is not the same after the two runs. *)
Lemma rerun_keeps_another_user_row :
  let spark := sample_session [play_event; unmatched_event] [song_S1] [] in
  let spark' := sample_session [unmatched_event; play_event] [song_S1] [] in
  same_input spark spark' /\
  exists fs1 fs2 users1 users2,
    main spark ∅ = Some fs1 /\
    main spark' fs1 = Some fs2 /\
    fs1 !! "s3://udacity-sparkify-music-dl/users.parquet"%string =
      Some {| table := UsersTable users1; partitionBy := [] |} /\
    fs2 !! "s3://udacity-sparkify-music-dl/users.parquet"%string =
      Some {| table := UsersTable users2; partitionBy := [] |} /\
    map Users.level users1 = [Some "free"%string] /\
    map Users.level users2 = [Some "paid"%string].
Proof.
  intros spark spark'. split.
  - repeat split; simpl; auto using perm_swap.
  - assert (H1 : main spark ∅ ≫=
                   (.!! "s3://udacity-sparkify-music-dl/users.parquet"%string) =
                 Some {| table := UsersTable [select_users play_event];
                         partitionBy := [] |})
      by (vm_compute; reflexivity).
    assert (H2 : match main spark ∅ with
                 | Some fs1 =>
                     match main spark' fs1 with
                     | Some fs2 =>
                         fs2 !! "s3://udacity-sparkify-music-dl/users.parquet"%string
                     | None => None
                     end
                 | None => None
                 end =
                 Some {| table := UsersTable [select_users unmatched_event];
                         partitionBy := [] |})
      by (vm_compute; reflexivity).
    destruct (main spark ∅) as [fs1|]; [|discriminate H1].
    cbn [mbind option_bind] in H1.
    destruct (main spark' fs1) as [fs2|] eqn:E2; [|discriminate H2].
    exists fs1, fs2, [select_users play_event], [select_users unmatched_event].
    split; [reflexivity|]. split; [exact E2|]. split; [exact H1|].
    split; [exact H2|]. split; reflexivity.
Qed.

(** C9, amended: a second run of both pipelines on unchanged input and
    the same destination, started from the store the first run left,
    succeeds, changes no other path, and leaves under each of the five
    destinations a dataset with the same partition columns that agrees
    with the first run's up to the choices Spark leaves open: each
    dimension table has the same keys, and the songplays table the same
    rows up to songplay_id, the same songplay_ids, and the same
    start_time under each songplay_id.  When both runs meet the records
    in the same order, every dataset but songplays is identical; when
    they also break ties alike, the store is unchanged. *)
Theorem rerun_yields_same_tables spark spark'
    (fs fs1 : gmap string Dataset) :
  same_input spark spark' ->
  main spark fs = Some fs1 ->
  exists fs2,
    main spark' fs1 = Some fs2 /\
    (forall path, ~ In path destinations -> fs2 !! path = fs1 !! path) /\
    (forall path, In path destinations ->
       exists d1 d2, fs1 !! path = Some d1 /\ fs2 !! path = Some d2 /\
                     same_up_to_choice d1 d2) /\
    (same_order spark spark' ->
     forall path,
       path <> "s3://udacity-sparkify-music-dl/songplays.parquet"%string ->
       fs2 !! path = fs1 !! path) /\
    (same_order spark spark' -> arrival spark' = arrival spark -> fs2 = fs1).
Proof.
  intros (Hsongs & Hlogs & Hzone).
  change "s3://udacity-sparkify-music-dl/songplays.parquet"%string
    with ("s3://udacity-sparkify-music-dl/" +:+ "songplays.parquet")%string.
  unfold same_order.
  change "s3a://udacity-dend/song_data/*/*/*/*.json"%string
    with ("s3a://udacity-dend/" +:+ "song_data/*/*/*/*.json")%string in *.
  change "s3a://udacity-dend/log_data/*/*/*.json"%string
    with ("s3a://udacity-dend/" +:+ "log_data/*/*/*.json")%string in *.
  unfold main. rewrite !process_song_data_store. simpl mbind.
  rewrite !process_log_data_store.
  set (S1 := read_song_json spark _) in *.
  set (S2 := read_song_json spark' _) in *.
  set (L1 := read_log_json spark _) in *.
  set (L2 := read_log_json spark' _) in *.
  destruct (withColumns (zone spark) (filter_NextSong L1)) as [df|] eqn:E1;
    [|discriminate].
  intros [= <-].
  destruct (withColumns_Permutation (zone spark) _ (filter_NextSong L2) df
              (filter_Permutation' _ _ _ Hlogs) E1) as (df' & E2 & Hdf).
  rewrite <- Hzone, E2. eexists. split; [reflexivity|].
  split; [|split; [|split]].
  - intros path Hp. unfold destinations in Hp. cbn [map In] in Hp.
    rewrite !lookup_insert_ne by tauto. reflexivity.
  - intros path Hp. unfold destinations in Hp. cbn [map In] in Hp.
    destruct Hp as [<-|[<-|[<-|[<-|[<-|[]]]]]];
      (eexists; eexists; split; [now lookup_paths|];
       split; [now lookup_paths|]; split; [reflexivity|]; cbn [table]).
    + now apply dropDuplicates_keys_Permutation, Permutation_map.
    + now apply dropDuplicates_keys_Permutation, Permutation_map.
    + apply dropDuplicates_keys_Permutation, Permutation_map.
      now apply filter_Permutation'.
    + now apply dropDuplicates_keys_Permutation, Permutation_map.
    + now apply songplays_table_same_rows.
  - intros [Es El] path Hp.
    assert (df' = df) as -> by (rewrite <- El in E2; congruence).
    rewrite <- Es, <- El. case_paths path. reflexivity.
  - intros [Es El] Ha.
    assert (df' = df) as -> by (rewrite <- El in E2; congruence).
    rewrite <- Es, <- El, Ha. apply map_eq. intros path.
    case_paths path. reflexivity.
Qed.

(** The two runs of the counterexample, the second with the rows swapped
    on their way to the window as well. *)
Lemma rerun_yields_same_tables_witness :
  let spark := sample_session [play_event; unmatched_event] [song_S1] [] in
  let spark' := sample_session [unmatched_event; play_event] [song_S1] [0%nat] in
  same_input spark spark' /\
  exists fs1 fs2,
    main spark ∅ = Some fs1 /\
    main spark' fs1 = Some fs2 /\
    forall path, In path destinations ->
      exists d1 d2, fs1 !! path = Some d1 /\ fs2 !! path = Some d2 /\
                    same_up_to_choice d1 d2.
Proof.
  intros spark spark'.
  assert (Hin : same_input spark spark')
    by (repeat split; simpl; auto using perm_swap).
  split; [exact Hin|].
  assert (E : exists fs1, main spark ∅ = Some fs1).
  { unfold main. rewrite process_song_data_store. cbn [mbind option_bind].
    rewrite process_log_data_store.
    assert (W : withColumns (zone spark)
                  (filter_NextSong
                     (read_log_json spark
                        ("s3a://udacity-dend/" +:+ "log_data/*/*/*.json"))) =
                Some [play_row; unmatched_row]) by (vm_compute; reflexivity).
    rewrite W. eauto. }
  destruct E as [fs1 E].
  destruct (rerun_yields_same_tables spark spark' ∅ fs1 Hin E)
    as (fs2 & H2 & _ & Hd & _).
  exists fs1, fs2. auto.
Defined.

(** The arrival order does decide which of two rows with equal start_time
    gets the smaller songplay_id. *)
Example arrival_breaks_ties :
  map Songplays.song_id
    (songplays_table UTC [] [play_row; unmatched_row] [song_S1]) =
    [Some "S1"%string; None] /\
  map Songplays.song_id
    (songplays_table UTC [0%nat] [play_row; unmatched_row] [song_S1]) =
    [None; Some "S1"%string].
Proof. split; reflexivity. Qed.

(** The conversion agrees with CPython, run in zone UTC, on these values:
    one is not a whole number of milliseconds any more, and the first day
    of year 1 cannot be converted. *)
Example get_timestamp_samples :
  map (fun n => micros <$> get_timestamp UTC (Some n))
      [0; 1; -1; 999; 1541106106795; -1541106106796; 4102444800123;
       253402300799999; -62135596799999; -62135510400001; -62135510400000;
       9007199254740993] =
  [Some 0; Some 1000; Some (-1000); Some 999000; Some 1541106106795000;
   Some (-1541106106796000); Some 4102444800123000;
   Some 253402300799998993; None; None; Some (-62135510400000000); None] /\
  get_timestamp UTC None = None.
Proof. split; vm_compute; reflexivity. Qed.

(** * Further properties of the pipelines *)

(** ** Projections: the songs and artists tables *)

(** X1: the songs table has a row for every song_id of the input and for
    no other, and each of its rows is the projection of an input record
    on song_id, title, artist_id, duration and year. *)
Theorem songs_table_rows_are_projections (song_data_df : list Song.row) :
  (forall k, In k (map Songs.song_id (songs_table song_data_df)) <->
             In k (map Song.song_id song_data_df)) /\
  (forall r, In r (songs_table song_data_df) ->
     exists s, In s song_data_df /\
       Songs.song_id r = Song.song_id s /\ Songs.title r = Song.title s /\
       Songs.artist_id r = Song.artist_id s /\
       Songs.duration r = Song.duration s /\ Songs.year r = Song.year s).
Proof.
  unfold songs_table. split.
  - intros k. now rewrite dropDuplicates_keys, map_map.
  - intros r Hr. apply dropDuplicates_In, in_map_iff in Hr as (s & <- & Hs).
    exists s. repeat split. exact Hs.
Qed.

(** X2: the artists table has a row for every artist_id of the input and
    for no other, and each of its rows is the projection of an input
    record, with artist_name, artist_location, artist_latitude and
    artist_longitude renamed to name, location, latitude and longitude. *)
Theorem artists_table_rows_are_projections (song_data_df : list Song.row) :
  (forall k, In k (map Artists.artist_id (artists_table song_data_df)) <->
             In k (map Song.artist_id song_data_df)) /\
  (forall r, In r (artists_table song_data_df) ->
     exists s, In s song_data_df /\
       Artists.artist_id r = Song.artist_id s /\
       Artists.name r = Song.artist_name s /\
       Artists.location r = Song.artist_location s /\
       Artists.latitude r = Song.artist_latitude s /\
       Artists.longitude r = Song.artist_longitude s).
Proof.
  unfold artists_table. split.
  - intros k. now rewrite dropDuplicates_keys, map_map.
  - intros r Hr. apply dropDuplicates_In, in_map_iff in Hr as (s & <- & Hs).
    exists s. repeat split. exact Hs.
Qed.

Lemma dropDuplicates_from_id {A K} `{EqDecision K} (key : A -> K) seen df :
  List.NoDup (map key df) -> (forall r, In r df -> ~ In (key r) seen) ->
  dropDuplicates_from key seen df = df.
Proof.
  revert seen. induction df as [|x df IH]; intros seen Hnd Hs; [reflexivity|].
  simpl in *. apply List.NoDup_cons_iff in Hnd as [Hx Hnd].
  destruct (decide (key x ∈ seen)) as [Hin|_].
  - apply list_elem_of_In in Hin. now apply Hs in Hin; [|left].
  - f_equal. apply IH; [exact Hnd|].
    intros r Hr [E|Hin].
    + apply Hx. rewrite E. now apply in_map.
    + apply (Hs r); auto.
Qed.

(** X3: when no two input records share a song_id, the songs table is the
    projection of the whole input, record by record: nothing is dropped. *)
Theorem songs_table_without_duplicates (song_data_df : list Song.row) :
  List.NoDup (map Song.song_id song_data_df) ->
  songs_table song_data_df = map select_songs song_data_df.
Proof.
  intros Hnd. unfold songs_table, dropDuplicates.
  apply dropDuplicates_from_id; [now rewrite map_map|]. intros r _ [].
Qed.

Lemma songs_table_without_duplicates_witness :
  List.NoDup (map Song.song_id [song_S1; song_S2]) /\
  length (songs_table [song_S1; song_S2]) = 2%nat.
Proof.
  assert (H : List.NoDup (map Song.song_id [song_S1; song_S2])).
  { apply List.NoDup_cons; [simpl; intros [[=]|[]]|].
    apply List.NoDup_cons; [intros []|apply List.NoDup_nil]. }
  split; [exact H|].
  now rewrite (songs_table_without_duplicates [song_S1; song_S2] H).
Defined.

(** ** Where the rows of songplays come from *)

Lemma songplays_table_from_pair tz arrival df song_df r :
  In r (songplays_table tz arrival df song_df) ->
  exists l o, In (l, o) (sp df song_df) /\
    unnumbered r = select_songplays (l, o) /\
    Songplays.month r = month tz (Songplays.start_time r) /\
    Songplays.year r = year tz (Songplays.start_time r).
Proof.
  intros Hr.
  assert (Hu : In (unnumbered r) (map select_songplays (sp df song_df))).
  { apply (Permutation_in _ (orderBy_Permutation start_micros arrival _)).
    rewrite <- (songplays_table_unnumbered tz). now apply in_map. }
  apply in_map_iff in Hu as ([l o] & Hu & Hp).
  exists l, o. split; [exact Hp|]. split; [now rewrite Hu|].
  unfold songplays_table in Hr. apply in_map_iff in Hr as ([x i] & <- & _).
  split; reflexivity.
Qed.

Lemma unnumbered_carries l o r :
  unnumbered r = select_songplays (l, o) ->
  carries l r /\
  Songplays.song_id r = o ≫= Song.song_id /\
  Songplays.artist_id r = o ≫= Song.artist_id.
Proof.
  destruct r. unfold unnumbered, select_songplays, carries. simpl.
  intros [= -> -> -> -> -> -> -> ->]. repeat split.
Qed.

(** X4: the join invents no row.  Every songplays row shows the columns
    of some event of the filtered log, and either takes its song_id and
    artist_id from a catalog record whose title and artist_name equal the
    event's song and artist (so neither is NULL), or has both NULL while
    no catalog record matches that event. *)
Theorem songplays_rows_come_from_the_join tz arrival
    (log_data_df : list LogT.row) (song_df : list Song.row) (r : Songplays.row) :
  In r (songplays_table tz arrival log_data_df song_df) ->
  exists l, In l log_data_df /\ carries l r /\
    ((exists s title artist_name,
        In s song_df /\
        Log.song (LogT.event l) = Some title /\ Song.title s = Some title /\
        Log.artist (LogT.event l) = Some artist_name /\
        Song.artist_name s = Some artist_name /\
        Songplays.song_id r = Song.song_id s /\
        Songplays.artist_id r = Song.artist_id s) \/
     (Songplays.song_id r = None /\ Songplays.artist_id r = None /\
      forall s, In s song_df -> join_condition l s <> Some true)).
Proof.
  intros Hr.
  apply songplays_table_from_pair in Hr as (l & o & Hp & Hu & _).
  apply unnumbered_carries in Hu as (Hc & Hs & Ha).
  apply join_left_In in Hp as [Hl Ho].
  exists l. split; [exact Hl|]. split; [exact Hc|].
  destruct o as [s|]; simpl in *.
  - left. destruct Ho as [Hs' Hon].
    apply join_condition_true in Hon as (title & artist_name & ? & ? & ? & ?).
    exists s, title, artist_name. auto 10.
  - right. auto.
Qed.

Lemma songplays_rows_come_from_the_join_witness :
  exists r,
    In r (songplays_table UTC [] [play_row; unmatched_row] [song_S1]) /\
    Songplays.song_id r = Some "S1"%string /\
    exists l, In l [play_row; unmatched_row] /\ carries l r.
Proof.
  exists (with_id_month_year UTC (select_songplays (play_row, Some song_S1), 1)).
  assert (H : In (with_id_month_year UTC
                    (select_songplays (play_row, Some song_S1), 1))
                 (songplays_table UTC [] [play_row; unmatched_row] [song_S1])).
  { vm_compute. left. reflexivity. }
  split; [exact H|]. split; [reflexivity|].
  destruct (songplays_rows_come_from_the_join UTC [] _ _ _ H)
    as (l & Hl & Hc & _).
  exists l. auto.
Defined.

(** ** Keys of the fact table in the dimension tables *)

(** X5: the user_id of every songplays row is a key of the users table of
    the same run: users and songplays are both taken from the log after
    the filter on page. *)
Theorem songplays_user_id_in_users tz arrival
    (logs : list Log.row) (df : list LogT.row) (song_df : list Song.row) :
  withColumns tz (filter_NextSong logs) = Some df ->
  forall r, In r (songplays_table tz arrival df song_df) ->
    In (Songplays.user_id r)
       (map Users.user_id (users_table (filter_NextSong logs))).
Proof.
  intros Hdf r Hr.
  apply songplays_table_from_pair in Hr as (l & o & Hp & Hu & _).
  apply unnumbered_carries in Hu as ((_ & Hu & _) & _).
  apply join_left_In in Hp as [Hl _].
  apply (withColumns_In _ _ _ Hdf) in Hl as (e & He & Hl).
  apply with_timestamp_datetime_Some in Hl as (t & _ & ->).
  unfold users_table. rewrite dropDuplicates_keys, map_map, Hu. simpl.
  apply in_map_iff. exists e. auto.
Qed.

Lemma songplays_user_id_in_users_witness :
  withColumns UTC (filter_NextSong [play_event; login_event]) = Some [play_row] /\
  forall r, In r (songplays_table UTC [] [play_row] [song_S1]) ->
    In (Songplays.user_id r)
       (map Users.user_id (users_table (filter_NextSong [play_event; login_event]))).
Proof.
  split; [vm_compute; reflexivity|].
  apply (songplays_user_id_in_users UTC [] [play_event; login_event]).
  vm_compute. reflexivity.
Defined.

(** X6: every songplays row has its row in the time table: the same
    start_time, and the same year and month, the columns by which both
    datasets are partitioned. *)
Theorem songplays_start_time_in_time_table tz arrival
    (log_data_df : list LogT.row) (song_df : list Song.row) (r : Songplays.row) :
  In r (songplays_table tz arrival log_data_df song_df) ->
  exists t, In t (time_table tz log_data_df) /\
    Times.start_time t = Songplays.start_time r /\
    Times.year t = Songplays.year r /\
    Times.month t = Songplays.month r.
Proof.
  intros Hr.
  apply songplays_table_from_pair in Hr as (l & o & Hp & Hu & Hm & Hy).
  apply unnumbered_carries in Hu as ((Hst & _) & _).
  apply join_left_In in Hp as [Hl _].
  assert (Hk : In (Songplays.start_time r)
                  (map Times.start_time (time_table tz log_data_df))).
  { unfold time_table. rewrite dropDuplicates_keys, map_map, Hst.
    apply in_map_iff. exists l. auto. }
  apply in_map_iff in Hk as (t & Ht & Hin). exists t.
  split; [exact Hin|]. split; [exact Ht|].
  rewrite Hm, Hy, <- Ht.
  apply time_table_In in Hin as (l' & _ & ->). split; reflexivity.
Qed.

Lemma songplays_start_time_in_time_table_witness :
  exists r,
    In r (songplays_table UTC [] [play_row] [song_S1]) /\
    exists t, In t (time_table UTC [play_row]) /\
      Times.start_time t = Songplays.start_time r /\ Times.year t = 2018.
Proof.
  exists (with_id_month_year UTC (select_songplays (play_row, Some song_S1), 1)).
  assert (H : In (with_id_month_year UTC
                    (select_songplays (play_row, Some song_S1), 1))
                 (songplays_table UTC [] [play_row] [song_S1])).
  { vm_compute. left. reflexivity. }
  split; [exact H|].
  destruct (songplays_start_time_in_time_table UTC [] _ _ _ H)
    as (t & Ht & Hs & Hy & _).
  exists t. split; [exact Ht|]. split; [exact Hs|]. now rewrite Hy.
Defined.

(** X7: a songplays row with a song_id has its song in the songs table,
    and one with an artist_id has its artist in the artists table, when
    the catalog joined to the log is the collection the song pipeline
    read. *)
Theorem songplays_ids_in_songs_and_artists tz arrival
    (log_data_df : list LogT.row) (song_df : list Song.row) (r : Songplays.row) :
  In r (songplays_table tz arrival log_data_df song_df) ->
  (forall id, Songplays.song_id r = Some id ->
     In (Some id) (map Songs.song_id (songs_table song_df))) /\
  (forall id, Songplays.artist_id r = Some id ->
     In (Some id) (map Artists.artist_id (artists_table song_df))).
Proof.
  intros Hr.
  apply songplays_table_from_pair in Hr as (l & o & Hp & Hu & _).
  apply unnumbered_carries in Hu as (_ & Hs & Ha).
  apply join_left_In in Hp as [_ Ho].
  destruct o as [s|]; simpl in *.
  - destruct Ho as [Hin _]. split; intros id Hid.
    + unfold songs_table. rewrite dropDuplicates_keys, map_map. simpl.
      apply in_map_iff. exists s. split; [congruence|exact Hin].
    + unfold artists_table. rewrite dropDuplicates_keys, map_map. simpl.
      apply in_map_iff. exists s. split; [congruence|exact Hin].
  - split; intros id Hid; congruence.
Qed.

Lemma songplays_ids_in_songs_and_artists_witness :
  exists r,
    In r (songplays_table UTC [] [play_row] [song_S2]) /\
    Songplays.song_id r = Some "S2"%string /\
    In (Some "S2"%string) (map Songs.song_id (songs_table [song_S2])).
Proof.
  exists (with_id_month_year UTC (select_songplays (play_row, Some song_S2), 1)).
  assert (H : In (with_id_month_year UTC
                    (select_songplays (play_row, Some song_S2), 1))
                 (songplays_table UTC [] [play_row] [song_S2])).
  { vm_compute. left. reflexivity. }
  split; [exact H|]. split; [reflexivity|].
  destruct (songplays_ids_in_songs_and_artists UTC [] _ _ _ H) as [Hs _].
  now apply Hs.
Defined.

(** ** When the log pipeline fails *)

Lemma withColumns_None tz df :
  withColumns tz df = None <->
  exists e, In e df /\ get_timestamp tz (Log.ts e) = None.
Proof.
  unfold withColumns. rewrite mapM_None, Exists_exists.
  split; intros (e & He & Hn); exists e.
  - apply list_elem_of_In in He. split; [exact He|].
    unfold with_timestamp_datetime in Hn.
    destruct (get_timestamp tz (Log.ts e)); [discriminate|reflexivity].
  - split; [now apply list_elem_of_In|].
    unfold with_timestamp_datetime. now rewrite Hn.
Qed.

(** X8: when the log holds an event with page = "NextSong" on whose ts
    the timestamp UDF raises, [process_log_data] fails; a NextSong event
    with a NULL ts is such an event. *)
Theorem process_log_data_fails_on_bad_ts spark input_data output_data
    (fs : gmap string Dataset) (e : Log.row) :
  In e (read_log_json spark (input_data +:+ "log_data/*/*/*.json")) ->
  Log.page e = Some "NextSong"%string ->
  get_timestamp (zone spark) (Log.ts e) = None \/ Log.ts e = None ->
  process_log_data spark input_data output_data fs = None.
Proof.
  intros He Hp Hts.
  assert (Hn : get_timestamp (zone spark) (Log.ts e) = None).
  { destruct Hts as [H|H]; [exact H|now rewrite H]. }
  rewrite process_log_data_store.
  assert (withColumns (zone spark)
            (filter_NextSong
               (read_log_json spark (input_data +:+ "log_data/*/*/*.json")))
          = None) as ->; [|reflexivity].
  apply withColumns_None. exists e.
  split; [now apply filter_NextSong_In|exact Hn].
Qed.

Lemma process_log_data_fails_on_bad_ts_witness :
  In null_ts_event [play_event; null_ts_event] /\
  process_log_data (sample_session [play_event; null_ts_event] [song_S1] [])
    "in/" "out/" ∅ = None.
Proof.
  assert (H : In null_ts_event [play_event; null_ts_event])
    by (right; left; reflexivity).
  split; [exact H|].
  apply (process_log_data_fails_on_bad_ts
           (sample_session [play_event; null_ts_event] [song_S1] [])
           "in/" "out/" ∅ null_ts_event H); [reflexivity|].
  right. reflexivity.
Defined.

(** X9: when no catalog record matches any event, the songplays table
    holds, before numbering, exactly one row for each event of the
    filtered log, with the columns of that event and song_id and artist_id
    NULL, and nothing else. *)
Theorem songplays_without_any_match tz arrival
    (log_data_df : list LogT.row) (song_df : list Song.row) :
  (forall l s, In l log_data_df -> In s song_df ->
               join_condition l s <> Some true) ->
  Permutation
    (map unnumbered (songplays_table tz arrival log_data_df song_df))
    (map (fun l => fact_row l None None) log_data_df) /\
  length (songplays_table tz arrival log_data_df song_df) = length log_data_df /\
  forall r, In r (songplays_table tz arrival log_data_df song_df) ->
    Songplays.song_id r = None /\ Songplays.artist_id r = None.
Proof.
  intros Hno.
  assert (Hp : Permutation
            (map unnumbered (songplays_table tz arrival log_data_df song_df))
            (map (fun l => fact_row l None None) log_data_df)).
  { rewrite songplays_table_unnumbered, orderBy_Permutation, select_songplays_sp.
    assert (forall l, In l log_data_df -> fact_rows_of_event song_df l =
                                         [fact_row l None None]) as Hrows.
    { intros l Hl. unfold fact_rows_of_event.
      rewrite <- partners_matching_records.
      destruct (partners join_condition song_df l) as [|s ms] eqn:E;
        [reflexivity|].
      assert (Hs : In s (partners join_condition song_df l))
        by (rewrite E; now left).
      apply filter_In in Hs as [Hs Hh]. exfalso. apply (Hno l s Hl Hs).
      unfold holds in Hh. now destruct (join_condition l s) as [[|]|]. }
    clear Hno. induction log_data_df as [|l df IH]; [reflexivity|]. simpl.
    rewrite (Hrows l) by now left. simpl. apply perm_skip.
    apply IH. intros l' Hl'. apply Hrows. now right. }
  split; [exact Hp|]. split.
  - apply Permutation_length in Hp. now rewrite !length_map in Hp.
  - intros r Hr.
    assert (Hu : In (unnumbered r)
                    (map (fun l => fact_row l None None) log_data_df)).
    { apply (Permutation_in _ Hp). now apply in_map. }
    apply in_map_iff in Hu as (l & Hu & _).
    destruct r. injection Hu as _ _ _ <- <- _ _ _. simpl. auto.
Qed.

Lemma songplays_without_any_match_witness :
  (forall l s, In l [unmatched_row] -> In s [song_S1; song_S2] ->
               join_condition l s <> Some true) /\
  Permutation
    (map unnumbered (songplays_table UTC [] [unmatched_row] [song_S1; song_S2]))
    [fact_row unmatched_row None None].
Proof.
  assert (H : forall l s, In l [unmatched_row] -> In s [song_S1; song_S2] ->
                          join_condition l s <> Some true).
  { intros l s [<-|[]] [<-|[<-|[]]]; discriminate. }
  split; [exact H|].
  now destruct (songplays_without_any_match UTC [] _ _ H) as [Hp _].
Defined.

(** ** The script as a whole *)

(** X10: when [main] returns, the store holds the paths it held before
    and the five datasets songs, artists, users, time and songplays under
    s3://udacity-sparkify-music-dl/, and no other path. *)
Theorem main_writes_five_datasets spark (fs fs' : gmap string Dataset) :
  main spark fs = Some fs' ->
  dom fs' = dom fs ∪ list_to_set destinations.
Proof.
  unfold main. rewrite process_song_data_store. cbn [mbind option_bind].
  rewrite process_log_data_store.
  destruct (withColumns _ _) as [df|]; [|discriminate].
  intros [= <-]. rewrite !dom_insert_L.
  unfold destinations. cbn [map list_to_set foldr].
  apply set_eq. intros x.
  rewrite !elem_of_union, !elem_of_singleton, elem_of_empty. tauto.
Qed.

Lemma main_writes_five_datasets_witness :
  exists fs',
    main (sample_session [play_event; login_event] [song_S1] []) ∅ = Some fs' /\
    dom fs' = list_to_set destinations.
Proof.
  assert (E : exists fs',
             main (sample_session [play_event; login_event] [song_S1] []) ∅
             = Some fs').
  { unfold main. rewrite process_song_data_store. cbn [mbind option_bind].
    rewrite process_log_data_store.
    assert (W : withColumns
                  (zone (sample_session [play_event; login_event] [song_S1] []))
                  (filter_NextSong
                     (read_log_json
                        (sample_session [play_event; login_event] [song_S1] [])
                        ("s3a://udacity-dend/" +:+ "log_data/*/*/*.json"))) =
                Some [play_row]) by (vm_compute; reflexivity).
    rewrite W. eauto. }
  destruct E as [fs' E]. exists fs'. split; [exact E|].
  rewrite (main_writes_five_datasets _ _ _ E), dom_empty_L.
  apply set_eq. intros x. rewrite elem_of_union, elem_of_empty. tauto.
Defined.

(** ** Ranges of the calendar columns *)

Lemma all_from_spec f n i :
  all_from f n i = true ->
  forall k, i <= k < i + Z.of_nat n -> f k = true.
Proof.
  revert i. induction n as [|n IH]; intros i H k Hk; [lia|].
  simpl in H. apply andb_true_iff in H as [Hi Hn].
  destruct (Z.eq_dec k i) as [->|Hne]; [exact Hi|].
  apply (IH (i + 1) Hn). lia.
Qed.

Lemma cycle_days_ok doe : 0 <= doe < 146097 -> cycle_day_ok doe = true.
Proof.
  assert (H : all_from cycle_day_ok (Z.to_nat 146097) 0 = true)
    by (vm_compute; reflexivity).
  intros Hd. apply (all_from_spec _ _ _ H). lia.
Qed.

(** The calendar repeats every 146097 days, 400 years later. *)
Lemma civil_from_days_cycle d :
  civil_from_days d =
  let z := d + 719468 in
  let c := civil_from_days (z mod 146097 - 719468) in
  {| c_year := c_year c + 400 * (z / 146097);
     c_month := c_month c;
     c_day := c_day c |}.
Proof.
  cbv zeta. unfold civil_from_days.
  set (z := d + 719468).
  assert (Hm : 0 <= z mod 146097 < 146097) by (apply Z.mod_pos_bound; lia).
  replace (z mod 146097 - 719468 + 719468) with (z mod 146097) by lia.
  rewrite (Z.div_small (z mod 146097)) by lia.
  replace (z mod 146097 - 0 * 146097) with (z mod 146097) by lia.
  replace (z - z / 146097 * 146097) with (z mod 146097)
    by (rewrite Z.mod_eq; lia).
  cbv zeta. simpl. f_equal. lia.
Qed.

Lemma days_of_new_year_cycle y k :
  days_of_new_year (y + 400 * k) = days_of_new_year y + 146097 * k.
Proof.
  unfold days_of_new_year.
  replace (y + 400 * k - 1) with (y - 1 + k * 400) by lia.
  rewrite Z.div_add by lia. cbv zeta.
  replace (y - 1 + k * 400 - ((y - 1) / 400 + k) * 400)
    with (y - 1 - (y - 1) / 400 * 400) by lia.
  lia.
Qed.

Lemma civil_from_days_ranges d :
  let c := civil_from_days d in
  1 <= c_month c <= 12 /\ 1 <= c_day c <= 31 /\
  0 <= d - days_of_new_year (c_year c) <= 365.
Proof.
  cbv zeta. rewrite civil_from_days_cycle. cbv zeta.
  set (z := d + 719468).
  assert (Hm : 0 <= z mod 146097 < 146097) by (apply Z.mod_pos_bound; lia).
  pose proof (cycle_days_ok _ Hm) as H. unfold cycle_day_ok in H.
  cbv zeta in H.
  set (c := civil_from_days (z mod 146097 - 719468)) in *.
  cbn [c_year c_month c_day].
  rewrite !andb_true_iff, !Z.leb_le in H.
  rewrite days_of_new_year_cycle.
  pose proof (Z.div_mod z 146097). subst z. lia.
Qed.

(** X11: in every row of the time table, hour is in 0..23, day in 1..31,
    week in 1..53, month in 1..12 and weekday in 1..7, for every
    timestamp and zone. *)
Theorem time_table_column_ranges tz (log_data_df : list LogT.row) (r : Times.row) :
  In r (time_table tz log_data_df) ->
  0 <= Times.hour r <= 23 /\
  1 <= Times.day r <= 31 /\
  1 <= Times.week r <= 53 /\
  1 <= Times.month r <= 12 /\
  1 <= Times.weekday r <= 7.
Proof.
  intros Hr. apply time_table_In in Hr as (l & _ & ->).
  unfold time_row. cbn [Times.hour Times.day Times.week Times.month Times.weekday].
  set (t := LogT.timestamp l).
  unfold hour, dayofmonth, weekofyear, month, dayofweek.
  pose proof (civil_from_days_ranges (local_days tz t)) as (Hm & Hd & _).
  pose proof (civil_from_days_ranges
                (local_days tz t - (local_days tz t + 3) mod 7 + 3))
    as (_ & _ & Hw).
  cbv zeta in *.
  pose proof (Z.mod_pos_bound (local_seconds tz t) 86400).
  pose proof (Z.mod_pos_bound (local_days tz t + 4) 7).
  split; [|split; [exact Hd|split; [|split; [exact Hm|lia]]]].
  - split; [apply Z.div_pos; lia|].
    apply Z.lt_succ_r, Z.div_lt_upper_bound; lia.
  - split.
    + assert (0 <= (local_days tz t - (local_days tz t + 3) mod 7 + 3 -
                    days_of_new_year
                      (c_year (civil_from_days
                         (local_days tz t - (local_days tz t + 3) mod 7 + 3)))) / 7)
        by (apply Z.div_pos; lia). lia.
    + assert ((local_days tz t - (local_days tz t + 3) mod 7 + 3 -
               days_of_new_year
                 (c_year (civil_from_days
                    (local_days tz t - (local_days tz t + 3) mod 7 + 3)))) / 7 < 53)
        by (apply Z.div_lt_upper_bound; lia). lia.
Qed.

Lemma time_table_column_ranges_witness :
  In (time_row UTC play_row) (time_table UTC [play_row; unmatched_row]) /\
  0 <= Times.hour (time_row UTC play_row) <= 23 /\
  1 <= Times.week (time_row UTC play_row) <= 53.
Proof.
  assert (H : In (time_row UTC play_row) (time_table UTC [play_row; unmatched_row])).
  { vm_compute. left. reflexivity. }
  split; [exact H|].
  destruct (time_table_column_ranges UTC _ _ H) as (Hh & _ & Hw & _).
  split; [exact Hh|exact Hw].
Defined.
